(** * fermi_helper: building and running the Fermi workflow in containers

    A shallow embedding of [fermi_helper.py].  The script renders a
    Dockerfile from a jinja2 template, runs [git], [docker] and
    [singularity] as subprocesses and assembles the shell script that is
    executed inside the container.

    - Text is [string]; the bytes of a [string] are the UTF-8 bytes of the
      Python [str], so [.encode('utf-8')] is the identity.
    - [pathlib] paths are records of a root and a list of names.
    - The operating system is an environment [Env]: a working directory, a
      file-existence test and a function that runs a command to completion,
      giving the new file system and the exit status.
    - The commands are computations in a state-and-exception monad [M]
      whose state holds the file system and the trace of the subprocesses
      that have run, each with its exit status. *)

From Stdlib Require Import Ascii ZArith Bool.
From stdpp Require Import base list strings gmap.

(** ** Text *)

Definition nl : string := String (ascii_of_nat 10) "".
Definition dq : string := String (ascii_of_nat 34) "".

(** [q s] is [s] between double quotes. *)
Definition q (s : string) : string := dq +:+ s +:+ dq.

(** [lines l] is the text whose lines are [l], each ended by a newline. *)
Fixpoint lines (l : list string) : string :=
  match l with
  | [] => ""
  | x :: r => x +:+ nl +:+ lines r
  end.

(** [sum(1 for c in s if c == ch)] *)
Fixpoint count_char (ch : ascii) (s : string) : nat :=
  match s with
  | EmptyString => 0
  | String c r => (if Ascii.eqb c ch then 1 else 0) + count_char ch r
  end.

(** [ch in s] for a one-character [ch] *)
Fixpoint contains_char (ch : ascii) (s : string) : bool :=
  match s with
  | EmptyString => false
  | String c r => Ascii.eqb c ch || contains_char ch r
  end.

(** [s.split(sep)] for a one-character separator *)
Fixpoint split_on (sep : ascii) (s : string) : list string :=
  match s with
  | EmptyString => [""]
  | String c r =>
      if Ascii.eqb c sep then "" :: split_on sep r
      else match split_on sep r with
           | [] => [String c ""]
           | w :: ws => String c w :: ws
           end
  end.

(** [s.rfind(ch)], [None] for -1 *)
Fixpoint rfind (ch : ascii) (s : string) : option nat :=
  match s with
  | EmptyString => None
  | String c r =>
      match rfind ch r with
      | Some i => Some (S i)
      | None => if Ascii.eqb c ch then Some 0 else None
      end
  end.

(** [s[i:]] *)
Fixpoint drop_string (i : nat) (s : string) : string :=
  match i, s with
  | 0, _ => s
  | S i', String _ r => drop_string i' r
  | S _, EmptyString => ""
  end.

(** Being a contiguous part of a text, and the test that decides it. *)
Definition infix (m x : string) : Prop := ∃ u v, x = u +:+ m +:+ v.
Definition starts_with (m x : string) : Prop := ∃ v, x = m +:+ v.
Definition ends_with (m x : string) : Prop := ∃ u, x = u +:+ m.

Fixpoint infixb (m x : string) : bool :=
  String.prefix m x ||
  match x with
  | EmptyString => false
  | String _ r => infixb m r
  end.

(** ** pathlib *)

Module pathlib.

(** A [PurePosixPath]: [root] is [""], ["/"] or ["//"]; [names] are the
    components after the root. *)
Record Path := mkPath { root : string; names : list string }.

#[global] Instance Path_eq_dec : EqDecision Path.
Proof. solve_decision. Defined.

Definition parse_root (s : string) : string :=
  match s with
  | String "/" (String "/" (String "/" _)) => "/"
  | String "/" (String "/" _) => "//"
  | String "/" _ => "/"
  | _ => ""
  end.

(** [Path(s)]: empty components and ["."] components are dropped. *)
Definition parse (s : string) : Path :=
  {| root := parse_root s;
     names := filter (λ n, n ≠ "" ∧ n ≠ ".") (split_on "/" s) |}.

(** [str(p)] *)
Definition str (p : Path) : string :=
  match root p, names p with
  | EmptyString, [] => "."
  | r, ns => r +:+ String.concat "/" ns
  end.

(** [p / o] *)
Definition joinpath (p o : Path) : Path :=
  if decide (root o = "") then {| root := root p; names := names p ++ names o |}
  else o.

(** [p.parent] *)
Definition parent (p : Path) : Path :=
  {| root := root p; names := removelast (names p) |}.

(** [p.name] *)
Definition name (p : Path) : string := List.last (names p) "".

(** [p.suffix]: the part of the name from its last dot on, when that dot
    is neither the first nor the last character of the name. *)
Definition suffix (p : Path) : string :=
  match rfind "." (name p) with
  | Some i =>
      if (0 <? i)%nat && (i <? String.length (name p) - 1)%nat
      then drop_string i (name p) else ""
  | None => ""
  end.

(** [p.relative_to(o)], [None] for [ValueError].  The test compares the
    components as they are written: nothing is normalised. *)
Definition relative_to (p o : Path) : option Path :=
  if decide (root o = "") then
    match names o with
    | [] => if decide (root p = "") then Some p else None
    | _ =>
        if decide (root p = "" ∧ take (length (names o)) (names p) = names o)
        then Some {| root := ""; names := drop (length (names o)) (names p) |}
        else None
    end
  else
    if decide (root p = root o ∧ take (length (names o)) (names p) = names o)
    then Some {| root := ""; names := drop (length (names o)) (names p) |}
    else None.

(** One step of [resolve]: [".."] drops the last component (and stays at
    the root), any other name is appended. *)
Definition resolve_step (acc : list string) (n : string) : list string :=
  if decide (n = "..") then removelast acc else acc ++ [n].

(** [p.resolve(strict=False)] in a directory [cwd], on a file system
    without symbolic links. *)
Definition resolve (cwd p : Path) : Path :=
  let a := joinpath cwd p in
  {| root := root a; names := fold_left resolve_step (names a) [] |}.

(** The invariant of the paths pathlib builds: no name is empty or
    contains a separator. *)
Definition wf_names (ns : list string) : Prop :=
  Forall (λ n, n ≠ "" ∧ contains_char "/" n = false) ns.

End pathlib.
Export pathlib.

(** ** jinja2 templates *)

Module jinja2.

Inductive value :=
| VNone
| VBool (b : bool)
| VStr (s : string)
| VPath (p : Path).

Inductive expr :=
| EName (x : string)
| ENot (e : expr).

#[warnings="-register-all"]
Inductive node :=
| Text (s : string)
| Output (x : string)
| If (c : expr) (body : list node).

(** Truth of a value in an [if]; an undefined name is false. *)
Definition truthy (v : option value) : bool :=
  match v with
  | None | Some VNone => false
  | Some (VBool b) => b
  | Some (VStr s) => negb (String.eqb s "")
  | Some (VPath _) => true
  end.

(** What an output tag writes; an undefined name writes nothing. *)
Definition to_text (v : option value) : string :=
  match v with
  | None => ""
  | Some VNone => "None"
  | Some (VBool true) => "True"
  | Some (VBool false) => "False"
  | Some (VStr s) => s
  | Some (VPath p) => str p
  end.

Fixpoint eval (ctx : gmap string value) (e : expr) : bool :=
  match e with
  | EName x => truthy (ctx !! x)
  | ENot e' => negb (eval ctx e')
  end.

Fixpoint render_node (ctx : gmap string value) (n : node) : string :=
  match n with
  | Text s => s
  | Output x => to_text (ctx !! x)
  | If c body =>
      if eval ctx c
      then (fix go (l : list node) : string :=
              match l with
              | [] => ""
              | n' :: r => render_node ctx n' +:+ go r
              end) body
      else ""
  end.

Fixpoint render (ctx : gmap string value) (t : list node) : string :=
  match t with
  | [] => ""
  | n :: r => render_node ctx n +:+ render ctx r
  end.

End jinja2.
Export jinja2.

(** ** The scripts and the Dockerfile template *)

Definition setupscript : string :=
  lines
    [ "#ls -lah /.singularity.d/";
      ". /etc/profile";
      "#cat /.singularity.d/runscript -A";
      "#set -euo pipefail" ].

Definition hermeticscript : string :=
  lines
    [ "#ls -lah /.singularity.d/";
      ". /etc/profile";
      "#cat /.singularity.d/runscript -A";
      "set -euo pipefail";
      "DECAF_PREFIX=/opt/decaf/stage";
      "DECAF_HENSON_PREFIX=${DECAF_PREFIX:?}/examples/henson";
      "FERMI_PREFIX=${DECAF_PREFIX:?}/examples/fermi_hep";
      "cd " +:+ q "$(TMPDIR=/tmp mktemp -d)";
      "tmpdir=$PWD";
      "";
      "cp -r " +:+ q "${DECAF_PREFIX:?}" +:+ " " +:+ q "${tmpdir:?}";
      "cd stage/examples/fermi_hep";
      "echo $PWD";
      "";
      "mkdir conf";
      "mv " +:+ q "${FERMI_PREFIX:?}/mb7tev.txt" +:+ " conf/";
      "cp " +:+ q "${FERMI_PREFIX:?}/hep-fullWorkflow-inputPre.json" +:+ " ./decaf-henson.json";
      "sed -ie 's!/home/oyildiz/decaf-henson/install!'" +:+ q "$tmpdir/stage" +:+ "'!g' ./decaf-henson.json";
      "#sed -ie 's!\./!'" +:+ q "${FERMI_PREFIX:?}/" +:+ "'!g' ./decaf-henson.json";
      "#cp " +:+ q "${FERMI_PREFIX:?}/hostfile_workflow.txt" +:+ " ./hostfile_workflow.txt";
      "cp " +:+ q "${DECAF_HENSON_PREFIX:?}/python/decaf-henson_python" +:+ " ./decaf-henson_python";
      "";
      "LD_LIBRARY_PATH=${LD_LIBRARY_PATH:+${LD_LIBRARY_PATH:?}:}${DECAF_PREFIX:?three}/lib";
      "export DECAF_PREFIX LD_LIBRARY_PATH" ].

Definition runscript : string :=
  lines
    [ "mpirun --hostfile hostfile_workflow.txt -np 4 ./decaf-henson_python" ].

Definition intscript : string :=
  lines
    [ "exec bash" ].

Definition builder_stage_text : string :=
  lines
    [ "# Build stage with Spack pre-installed and ready to be used";
      "FROM spack/ubuntu-bionic:latest as builder";
      "";
      "# What we want to install and how we want to install it";
      "# is specified in a manifest file (spack.yaml)";
      "RUN mkdir /opt/spack-environment \";
      "&&  (echo " +:+ q "spack:" +:+ " \";
      "&&   echo " +:+ q "  view: /opt/view" +:+ " \";
      "&&   echo " +:+ q "  specs:" +:+ " \";
      "&&   echo " +:+ q "  - boost" +:+ " \";
      "&&   echo " +:+ q "  - cmake" +:+ " \";
      "&&   echo " +:+ q "  - henson +mpi-wrappers +python ^mpich@3.3.2 ^python@3.8.2" +:+ " \";
      "&&   echo " +:+ q "  - py-h5py ^hdf5@1.10.2 ^mpich@3.3.2 ^python@3.8.2" +:+ " \";
      "&&   echo " +:+ q "  - py-scipy@1.3.3 ^python@3.8.2" +:+ " \";
      "&&   echo " +:+ q "  - autoconf" +:+ " \";
      "&&   echo " +:+ q "  - automake" +:+ " \";
      "&&   echo " +:+ q "  - hepmc@2.06.10" +:+ " \";
      "&&   echo " +:+ q "  - diy@master ^mpich@3.3.2" +:+ " \";
      "&&   echo " +:+ q "  config:" +:+ " \";
      "&&   echo " +:+ q "    install_tree: /opt/software" +:+ " \";
      "&&   echo " +:+ q "  concretization: together" +:+ ") > /opt/spack-environment/spack.yaml";
      "";
      "# Install the software, remove unecessary deps";
      "RUN cd /opt/spack-environment && spack install && spack gc -y";
      "";
      "RUN cd /opt/spack-environment && spack add pythia8 && spack install && spack gc -y";
      "";
      "## Strip all the binaries";
      "#RUN find -L /opt/view/* -type f -exec readlink -f '{}' \; | \";
      "#    xargs file -i | \";
      "#    grep 'charset=binary' | \";
      "#    grep 'x-executable\|x-archive\|x-sharedlib' | \";
      "#    awk -F: '{print $1}' | xargs strip -s";
      "";
      "# Modifications to the environment that are necessary to run";
      "RUN cd /opt/spack-environment && \";
      "    spack env activate --sh -d . >> /etc/profile.d/z10_spack_environment.sh";
      "";
      "" ].

Definition dependencies_stage_text : string :=
  lines
    [ "# Bare OS image to run the installed executables";
      "FROM ubuntu:18.04 AS dependencies";
      "";
      "RUN apt-get update && \";
      "    apt-get install -y \";
      "        build-essential \";
      "        wget \";
      "        gfortran \";
      "    && \";
      "    rm -rf /var/lib/apt/lists/*";
      "";
      "COPY --from=builder /opt/spack-environment /opt/spack-environment";
      "COPY --from=builder /opt/software /opt/software";
      "COPY --from=builder /opt/view /opt/view";
      "COPY --from=builder /etc/profile.d/z10_spack_environment.sh /etc/profile.d/z10_spack_environment.sh";
      "";
      "ADD apprentice-latest-nodata.tar.gz /opt";
      "RUN . /etc/profile && \";
      "    python3.8 -m ensurepip && \";
      "    python3.8 -m pip install virtualenv && \";
      "    python3.8 -m virtualenv /opt/venv && \";
      "    /opt/venv/bin/python -m pip install \";
      "        networkx \";
      "        cython \";
      "        /opt/apprentice-latest \";
      "    && \";
      "    echo '. /opt/venv/bin/activate' > /etc/profile.d/z15_python_environment.sh";
      "";
      "RUN . /etc/profile && \";
      "    mkdir /opt/rivet && \";
      "    cd /opt/rivet && \";
      "    wget https://phab.hepforge.org/source/rivetbootstraphg/browse/3.0.2/rivet-bootstrap?view=raw -O rivet-bootstrap && \";
      "    chmod +x rivet-bootstrap && \";
      "    { RIVET_VERSION=2.7.2 YODA_VERSION=1.7.5 HEPMC_VERSION=2.06.09 FASTJET_VERSION=3.3.2 ./rivet-bootstrap || true; } && \";
      "    rm YODA-1.7.5/pyext/yoda/util.cpp && \";
      "    RIVET_VERSION=2.7.2 YODA_VERSION=1.7.5 HEPMC_VERSION=2.06.09 FASTJET_VERSION=3.3.2 ./rivet-bootstrap && \";
      "    echo '. /opt/rivet/local/rivetenv.sh' > /etc/profile.d/z20_rivet_environment.sh";
      "" ].

Definition shell_setup_text : string :=
  lines
    [ "";
      "SHELL [" +:+ q "/bin/bash" +:+ ", " +:+ q "--rcfile" +:+ ", " +:+ q "/etc/profile" +:+ ", " +:+ q "-l" +:+ ", " +:+ q "-c" +:+ "]";
      "WORKDIR /opt" ].

Definition patch_text : string :=
  lines
    [ "WORKDIR /opt/decaf";
      "COPY go.sh docker.env.sh /opt/decaf/";
      "RUN sed -ie '/extern " +:+ q "C" +:+ " void \*(\*dlsym(void \*handle, const char \*symbol))();/d' /opt/view/include/Pythia8/PythiaStdlib.h && \";
      "    rm -rf /opt/view/include/diy/thirdparty/fmt && \";
      "    cp -r include/fmt /opt/view/include/diy/thirdparty/fmt";
      "" ].

Definition compile_instruction : string :=
  lines
    [ "RUN . /etc/profile && \";
      "    . /opt/venv/bin/activate && \";
      "    ENV=docker ./go.sh cmake && \";
      "    ENV=docker ./go.sh make" ].

Definition entrypoint_text : string :=
  lines
    [ "";
      "ENTRYPOINT [" +:+ q "/bin/bash" +:+ ", " +:+ q "--rcfile" +:+ ", " +:+ q "/etc/profile" +:+ "]" ].

(** The text between [{% if not pull_dependencies %}] and its [{% endif %}]:
    the builder stage (Spack manifest and installs) and the dependencies
    stage (system packages, Python environment, Rivet bootstrap). *)
Definition dependency_block : string :=
  nl +:+ builder_stage_text +:+ dependencies_stage_text.

(** [COPY {{ decaf_root }} /opt/decaf], for a source tree written [src] *)
Definition copy_instruction (src : string) : string :=
  "COPY " +:+ src +:+ " /opt/decaf" +:+ nl.

(** The text from the [{% endif %}] of the pull branch to the
    [{% if not only_dependencies %}] *)
Definition final_header : string :=
  nl +:+ lines [ ""; ""; "FROM dependencies AS final"; "" ].

(** The text after the last [{% endif %}] *)
Definition entrypoint : string :=
  nl +:+ entrypoint_text +:+ "CMD [" +:+ q "-l" +:+ "]".

(** The template as jinja2 parses it with its default settings: the
    newline after a block tag is kept, and the single newline that ends
    the source is dropped. *)
Definition dockerfile_template : list node :=
  [ If (ENot (EName "pull_dependencies")) [ Text dependency_block ];
    Text (nl +:+ nl);
    If (EName "pull_dependencies")
       [ Text (nl +:+ "FROM ");
         Output "pull_dependencies";
         Text (" AS dependencies" +:+ nl) ];
    Text final_header;
    If (ENot (EName "only_dependencies"))
       [ Text (nl +:+ shell_setup_text +:+ "COPY ");
         Output "decaf_root";
         Text (" /opt/decaf" +:+ nl +:+ patch_text +:+ compile_instruction +:+ nl) ];
    Text entrypoint ].

(** A keyword argument that may be [None] *)
Definition option_value (o : option string) : value :=
  match o with
  | None => VNone
  | Some s => VStr s
  end.

(** [dockerfile_template.render(decaf_root=..., only_dependencies=...,
    pull_dependencies=...)] *)
Definition render_dockerfile (decaf_root : Path) (only_dependencies : bool)
    (pull_dependencies : option string) : string :=
  render
    (<["decaf_root" := VPath decaf_root]>
       (<["only_dependencies" := VBool only_dependencies]>
          (<["pull_dependencies" := option_value pull_dependencies]> ∅)))
    dockerfile_template.

Definition _make_script (interactive : bool) : string :=
  let script := setupscript in
  let script := script +:+ hermeticscript in
  if interactive then script +:+ intscript else script +:+ runscript.

(** ** The operating system *)

(** A subprocess as [subprocess.run] starts it. *)
Record Cmd := mkCmd {
  argv : list string;
  cmd_cwd : option Path;
  cmd_input : option string
}.

(** The environment of one run of the script.  [getcwd] is the working
    directory of the process, which no subprocess can change.  Every
    command can be started; [spawn] runs it to completion. *)
Record Env := mkEnv {
  FS : Type;
  getcwd : Path;
  path_exists : FS → Path → bool;
  spawn : FS → Cmd → FS * Z
}.

Inductive exn :=
| AssertionError (msg : string)
| ArgumentTypeError (msg : string)
| UsageError (msg : string)
| CalledProcessError (returncode : Z) (cmd : list string)
| ValueError (msg : string)
| TypeError (msg : string).

(** [str(e)] *)
Definition exn_str (e : exn) : string :=
  match e with
  | AssertionError m | ArgumentTypeError m | UsageError m
  | ValueError m | TypeError m => m
  | CalledProcessError _ _ => "Command returned non-zero exit status"
  end.

(** The functions [cli] dispatches to *)
Inductive main_fn :=
| MainBuildDockerImage
| MainRunDockerImage
| MainBuildSingularityImage
| MainRunSingularityImage.

(** The parameters in the [def] of each command *)
Definition params (m : main_fn) : list string :=
  match m with
  | MainBuildDockerImage =>
      [ "decaf_root"; "decaf_repo"; "decaf_repo_branch"; "tag";
        "only_dependencies"; "pull_dependencies" ]
  | MainRunDockerImage => [ "tag"; "interactive" ]
  | MainBuildSingularityImage => [ "tag"; "sif" ]
  | MainRunSingularityImage => [ "interactive" ]
  end.

(** The command line after argparse has split it: the subcommand and the
    raw text of each option that was given. *)
Inductive command_line :=
| NoCommand
| BuildDockerImage (decaf_root decaf_repo decaf_repo_branch tag : option string)
    (only_dependencies : bool) (pull_dependencies : option string)
| RunDockerImage (tag : option string) (interactive : bool)
| BuildSingularityImage (tag sif : option string)
| RunSingularityImage (sif : option string) (interactive : bool).

Definition docker_build_argv (tag target : string) : list string :=
  [ "docker"; "build"; "-t"; tag; "-f"; "-"; "--target"; target; "." ].

Definition wrap_exception {A B : Type} (func : A → exn + B) (s : A) : exn + B :=
  match func s with
  | inl e => inl (ArgumentTypeError (exn_str e))
  | inr v => inr v
  end.

Definition tag : string → exn + string :=
  wrap_exception (λ s,
    if negb (count_char "/" s <=? 1)%nat then
      inl (AssertionError
             ("Expected 0 or 1 " +:+ q "/" +:+
              " separator in tag (user/imagename or imagename)"))
    else if negb (contains_char ":" s) then
      inl (AssertionError
             ("Expected " +:+ q ":" +:+ " separator in tag (version, e.g. " +:+
              q "latest" +:+ ")"))
    else inr s).

Section Program.

Context (env : Env).

Record state := mkState {
  fs : FS env;
  trace : list (Cmd * Z)
}.

(** Computations that read and change the state and may raise. *)
Definition M (A : Type) : Type := state → state * (exn + A).

Definition ret {A : Type} (a : A) : M A := λ st, (st, inr a).

Definition raise {A : Type} (e : exn) : M A := λ st, (st, inl e).

Definition bind {A B : Type} (m : M A) (k : A → M B) : M B :=
  λ st, match m st with
        | (st', inl e) => (st', inl e)
        | (st', inr a) => k a st'
        end.

Notation "'let*' x ':=' m 'in' k" := (bind m (λ x, k))
  (at level 10, x name, m at level 100, k at level 200).
Notation "m ;; k" := (bind m (λ _, k))
  (at level 100, k at level 200, right associativity).

Definition lift {A : Type} (r : exn + A) : M A := λ st, (st, r).

(** [p.exists()] *)
Definition exists_ (p : Path) : M bool :=
  λ st, (st, inr (path_exists env (fs st) p)).

(** [subprocess.run(args, cwd=..., input=..., check=...)] *)
Definition run (args : list string) (cwd : option Path) (input : option string)
    (check : bool) : M unit :=
  λ st,
    let c := mkCmd args cwd input in
    let '(fs', rc) := spawn env (fs st) c in
    let st' := {| fs := fs'; trace := trace st ++ [(c, rc)] |} in
    if check && negb (rc =? 0)%Z
    then (st', inl (CalledProcessError rc args))
    else (st', inr tt).

Definition main_build_docker_image (decaf_root : Path)
    (decaf_repo decaf_repo_branch tag : string) (only_dependencies : bool)
    (pull_dependencies : option string) : M unit :=
  let* present := exists_ decaf_root in
  (if negb present then
     run [ "git"; "clone"; decaf_repo; str decaf_root ] None None true ;;
     run [ "git"; "checkout"; decaf_repo_branch ] (Some decaf_root) None false
   else ret tt) ;;
  let* rel :=
    match relative_to decaf_root (getcwd env) with
    | Some r => ret r
    | None => raise (ValueError "not in the subpath")
    end in
  let dockerfile := render_dockerfile rel only_dependencies pull_dependencies in
  let target := if only_dependencies then "dependencies" else "final" in
  run (docker_build_argv tag target) None (Some dockerfile) true ;;
  if contains_char "/" tag then run [ "docker"; "push"; tag ] None None true
  else ret tt.

Definition main_run_docker_image (tag : string) (interactive : bool) : M unit :=
  let script := _make_script interactive in
  run [ "docker"; "run"; "-it"; "--rm"; tag; "--rcfile"; "/etc/profile";
        "-c"; script; "decaf-fermi-wrapper" ] None None true.

Definition main_build_singularity_image (tag : string) (sif : Path) : M unit :=
  let tag :=
    if contains_char "/" tag then "docker://" +:+ tag
    else "docker-daemon://" +:+ tag in
  run [ "singularity"; "build"; str sif; tag ] None None true.

Definition main_run_singularity_image (interactive : bool) : M unit :=
  let script := _make_script interactive in
  run [ "singularity"; "exec"; "./decaf-fermi.sif"; "bash"; "--rcfile";
        "/etc/profile"; "-c"; script; "decaf-fermi-wrapper" ] None None true.

Definition sif (f : FS env) : string → exn + Path :=
  wrap_exception (λ s,
    let path := parse s in
    let path := resolve (getcwd env) path in
    if negb (bool_decide (suffix path = ".sif")) then
      inl (AssertionError "Expected sif extension")
    else if negb (path_exists env f (parent path)) then
      inl (AssertionError
             ("Expected parent directory to exist: " +:+ str (parent path)))
    else inr path).

(** The call of [main] with the dict [args] as keyword arguments: Python
    binds the keywords to the parameters of the function and raises [TypeError] when a keyword names no parameter or a
    parameter is left without a value. *)
Definition call (main : main_fn) (args : gmap string value) : M unit :=
  if decide (dom args = list_to_set (params main)) then
    match main with
    | MainBuildDockerImage =>
        match args !! "decaf_root", args !! "decaf_repo",
              args !! "decaf_repo_branch", args !! "tag",
              args !! "only_dependencies", args !! "pull_dependencies" with
        | Some (VPath r), Some (VStr repo), Some (VStr branch), Some (VStr t),
          Some (VBool only), Some VNone =>
            main_build_docker_image r repo branch t only None
        | Some (VPath r), Some (VStr repo), Some (VStr branch), Some (VStr t),
          Some (VBool only), Some (VStr pull) =>
            main_build_docker_image r repo branch t only (Some pull)
        | _, _, _, _, _, _ => raise (TypeError "unsupported argument value")
        end
    | MainRunDockerImage =>
        match args !! "tag", args !! "interactive" with
        | Some (VStr t), Some (VBool i) => main_run_docker_image t i
        | _, _ => raise (TypeError "unsupported argument value")
        end
    | MainBuildSingularityImage =>
        match args !! "tag", args !! "sif" with
        | Some (VStr t), Some (VPath p) => main_build_singularity_image t p
        | _, _ => raise (TypeError "unsupported argument value")
        end
    | MainRunSingularityImage =>
        match args !! "interactive" with
        | Some (VBool i) => main_run_singularity_image i
        | _ => raise (TypeError "unsupported argument value")
        end
    end
  else raise (TypeError "unexpected or missing keyword argument").

(** argparse turns the text of an option into a value with the option's
    [type]; an [ArgumentTypeError] becomes a usage error (exit status 2). *)
Definition get_value {A : Type} (opt : string) (r : exn + A) : M A :=
  match r with
  | inl (ArgumentTypeError msg) =>
      raise (UsageError ("argument " +:+ opt +:+ ": " +:+ msg))
  | inl e => raise e
  | inr v => ret v
  end.

Definition tag_option (raw : option string) : M string :=
  get_value "--tag" (tag (default "decaf-fermi:latest" raw)).

Definition cli (line : command_line) : M unit :=
  (* building the parser evaluates the defaults of --decaf-root and --sif *)
  let default_root := joinpath (getcwd env) (parse "decaf") in
  let* default_sif := (λ st, lift (sif (fs st) "./decaf-fermi.sif") st) in
  match line with
  | NoCommand => ret tt
  | BuildDockerImage root repo branch t only pull =>
      let* t := tag_option t in
      let* pull :=
        match pull with
        | None => ret VNone
        | Some s =>
            let* s := get_value "--pull-dependencies" (tag s) in ret (VStr s)
        end in
      call MainBuildDockerImage
        (<["decaf_root" := VPath (from_option parse default_root root)]>
           (<["decaf_repo" :=
                VStr (default "git@bitbucket.org:tpeterka1/decaf.git" repo)]>
              (<["decaf_repo_branch" := VStr (default "decaf-henson" branch)]>
                 (<["tag" := VStr t]>
                    (<["only_dependencies" := VBool only]>
                       (<["pull_dependencies" := pull]> ∅))))))
  | RunDockerImage t interactive =>
      let* t := tag_option t in
      call MainRunDockerImage
        (<["tag" := VStr t]> (<["interactive" := VBool interactive]> ∅))
  | BuildSingularityImage t s =>
      let* t := tag_option t in
      let* s :=
        match s with
        | None => ret default_sif
        | Some s => (λ st, get_value "--sif" (sif (fs st) s) st)
        end in
      call MainBuildSingularityImage
        (<["tag" := VStr t]> (<["sif" := VPath s]> ∅))
  | RunSingularityImage s interactive =>
      let* s :=
        match s with
        | None => ret default_sif
        | Some s => (λ st, get_value "--sif" (sif (fs st) s) st)
        end in
      call MainRunSingularityImage
        (<["sif" := VPath s]> (<["interactive" := VBool interactive]> ∅))
  end.

End Program.

(** ** A small operating system to run the commands in *)

(** The file system is the list of the paths that exist.  A command exits
    with the status [status] gives for its arguments; a [git clone] that
    exits with 0 creates its target directory. *)
Definition toy_env (cwd : Path) (status : list string → Z) : Env :=
  {| FS := list Path;
     getcwd := cwd;
     path_exists := λ f p, bool_decide (p ∈ f);
     spawn := λ f c,
       let rc := status (argv c) in
       match argv c with
       | [ "git"; "clone"; _; d ] =>
           (if (rc =? 0)%Z then parse d :: f else f, rc)
       | _ => (f, rc)
       end |}.

Definition home : Path := parse "/home/u".

(** Every command succeeds. *)
Definition all_ok : list string → Z := λ _, 0%Z.

(** Every command succeeds but the one whose first two words are given. *)
Definition failing (tool verb : string) (rc : Z) : list string → Z :=
  λ a, match a with
       | t :: v :: _ => if bool_decide (t = tool ∧ v = verb) then rc else 0%Z
       | _ => 0%Z
       end.

Definition start (env : Env) (f : FS env) : state env :=
  {| fs := f; trace := [] |}.

(** ** The shape of a rendering *)

(** The fixed texts around the two variable parts of a rendering, the tag
    of the pulled image and the source tree; each variable part has a space
    on either side. *)
Definition before_tag : string := nl +:+ nl +:+ nl +:+ "FROM".

Definition after_tag_only : string :=
  "AS dependencies" +:+ nl +:+ final_header +:+ entrypoint.

Definition after_tag_to_copy : string :=
  "AS dependencies" +:+ nl +:+ final_header +:+ nl +:+ shell_setup_text +:+ "COPY".

Definition after_root : string :=
  "/opt/decaf" +:+ nl +:+ patch_text +:+ compile_instruction +:+ nl +:+ entrypoint.

(** The final stage of a full build, for a source tree written [src] *)
Definition final_stage (src : string) : string :=
  "FROM dependencies AS final" +:+ nl +:+ nl +:+ nl +:+ shell_setup_text +:+
  copy_instruction src +:+ patch_text +:+ compile_instruction +:+ nl +:+
  entrypoint.

(** The stage that a pulled image gives *)
Definition pulled_stage (t : string) : string :=
  "FROM " +:+ t +:+ " AS dependencies" +:+ nl.

(** Whether the [if pull_dependencies] of the template holds *)
Definition pull_given (pull : option string) : bool :=
  match pull with
  | Some s => negb (String.eqb s "")
  | None => false
  end.

(** The value argparse gives for [--pull-dependencies]: absent, or a text
    that [tag] accepted. *)
Definition pull_ok (pull : option string) : Prop :=
  match pull with
  | None => True
  | Some t => tag t = inr t
  end.

(** The argument lists of the run commands *)
Definition docker_run_argv (t script : string) : list string :=
  [ "docker"; "run"; "-it"; "--rm"; t; "--rcfile"; "/etc/profile";
    "-c"; script; "decaf-fermi-wrapper" ].

Definition singularity_exec_argv (image script : string) : list string :=
  [ "singularity"; "exec"; image; "bash"; "--rcfile"; "/etc/profile";
    "-c"; script; "decaf-fermi-wrapper" ].

(** ** The subprocesses of build-docker-image *)

Definition clone_cmd (repo : string) (root : Path) : Cmd :=
  mkCmd [ "git"; "clone"; repo; str root ] None None.

Definition checkout_cmd (branch : string) (root : Path) : Cmd :=
  mkCmd [ "git"; "checkout"; branch ] (Some root) None.

Definition target_of (only_dependencies : bool) : string :=
  if only_dependencies then "dependencies" else "final".

Definition build_cmd (t : string) (only : bool) (dockerfile : string) : Cmd :=
  mkCmd (docker_build_argv t (target_of only)) None (Some dockerfile).

Definition push_cmd (t : string) : Cmd :=
  mkCmd [ "docker"; "push"; t ] None None.

(** A run of the container build tool *)
Definition is_docker_build (c : Cmd) : bool :=
  match argv c with
  | "docker" :: "build" :: _ => true
  | _ => false
  end.

(** The build step is reached: the source tree is written under the
    working directory, and it is present or its clone exits with 0. *)
Definition reaches_build (env : Env) (f : FS env) (root : Path) (repo : string) : Prop :=
  is_Some (relative_to root (getcwd env)) ∧
  (path_exists env f root = true ∨ (spawn env f (clone_cmd repo root)).2 = 0%Z).

(** The subprocesses that fetch the source tree: none when it is present,
    a clone that exits with 0 and a checkout with any exit status when it
    is not. *)
Inductive fetched (env : Env) (f : FS env) (root : Path) (repo branch : string) :
  list (Cmd * Z) → Prop :=
| fetched_present :
    path_exists env f root = true →
    fetched env f root repo branch []
| fetched_cloned (rc : Z) :
    path_exists env f root = false →
    (spawn env f (clone_cmd repo root)).2 = 0%Z →
    fetched env f root repo branch
      [ (clone_cmd repo root, 0%Z); (checkout_cmd branch root, rc) ].

(** The runs of build-docker-image: the trace of subprocesses and the
    outcome. *)
Inductive build_run (env : Env) (f : FS env) (root : Path) (repo branch t : string)
    (only : bool) (pull : option string) : list (Cmd * Z) → exn + unit → Prop :=
| clone_failed (rc : Z) :
    path_exists env f root = false →
    (spawn env f (clone_cmd repo root)).2 = rc → rc ≠ 0%Z →
    build_run env f root repo branch t only pull
      [ (clone_cmd repo root, rc) ]
      (inl (CalledProcessError rc (argv (clone_cmd repo root))))
| not_relative (pre : list (Cmd * Z)) :
    fetched env f root repo branch pre →
    relative_to root (getcwd env) = None →
    build_run env f root repo branch t only pull
      pre (inl (ValueError "not in the subpath"))
| build_failed (pre : list (Cmd * Z)) (rel : Path) (rc : Z) :
    fetched env f root repo branch pre →
    relative_to root (getcwd env) = Some rel → rc ≠ 0%Z →
    build_run env f root repo branch t only pull
      (pre ++ [ (build_cmd t only (render_dockerfile rel only pull), rc) ])
      (inl (CalledProcessError rc (docker_build_argv t (target_of only))))
| built_local (pre : list (Cmd * Z)) (rel : Path) :
    fetched env f root repo branch pre →
    relative_to root (getcwd env) = Some rel →
    contains_char "/" t = false →
    build_run env f root repo branch t only pull
      (pre ++ [ (build_cmd t only (render_dockerfile rel only pull), 0%Z) ])
      (inr tt)
| push_failed (pre : list (Cmd * Z)) (rel : Path) (rc : Z) :
    fetched env f root repo branch pre →
    relative_to root (getcwd env) = Some rel →
    contains_char "/" t = true → rc ≠ 0%Z →
    build_run env f root repo branch t only pull
      (pre ++ [ (build_cmd t only (render_dockerfile rel only pull), 0%Z);
                (push_cmd t, rc) ])
      (inl (CalledProcessError rc (argv (push_cmd t))))
| pushed (pre : list (Cmd * Z)) (rel : Path) :
    fetched env f root repo branch pre →
    relative_to root (getcwd env) = Some rel →
    contains_char "/" t = true →
    build_run env f root repo branch t only pull
      (pre ++ [ (build_cmd t only (render_dockerfile rel only pull), 0%Z);
                (push_cmd t, 0%Z) ])
      (inr tt).

(** ** Notions the properties are stated with *)

(** The text has the character [c]; it has it twice. *)
Definition has_char (c : ascii) (s : string) : Prop :=
  ∃ a b, s = a +:+ String c b.

Definition has_two (c : ascii) (s : string) : Prop :=
  ∃ a b d, s = a +:+ String c (b +:+ String c d).

(** The image tags given on a command line *)
Definition tags_of (line : command_line) : list string :=
  match line with
  | BuildDockerImage _ _ _ t _ pull => option_list t ++ option_list pull
  | RunDockerImage t _ | BuildSingularityImage t _ => option_list t
  | NoCommand | RunSingularityImage _ _ => []
  end.

(** The parser can be built: the default of [--sif] validates, which it
    does when the working directory exists. *)
Definition parser_ok (env : Env) (f : FS env) : Prop :=
  ∃ p, sif env f "./decaf-fermi.sif" = inr p.

(** Following the spec, [p] is a descendant of the directory [cwd]: once
    both are resolved, [p] lies strictly below [cwd]. *)
Definition descendant_of (cwd p : Path) : Prop :=
  root (resolve cwd p) = root (resolve cwd cwd) ∧
  ∃ rest, rest ≠ [] ∧
    names (resolve cwd p) = names (resolve cwd cwd) ++ rest.

(** ** Notions for the remaining commands *)

(** Where build-singularity-image takes the Docker image from: the registry
    for a tag with a [/], the local Docker daemon otherwise. *)
Definition image_reference (t : string) : string :=
  if contains_char "/" t then "docker://" +:+ t else "docker-daemon://" +:+ t.

(** The errors of option validation and of the dispatch, as opposed to the
    errors of the steps of a command. *)
Definition is_validation_error (e : exn) : bool :=
  match e with
  | AssertionError _ | ArgumentTypeError _ | UsageError _ | TypeError _ => true
  | CalledProcessError _ _ | ValueError _ => false
  end.

(** The source tree when [--decaf-root] is omitted *)
Definition default_decaf_root (env : Env) : Path :=
  joinpath (getcwd env) (parse "decaf").

(** * Properties *)

(** ** Text *)

#[local] Arguments String.append !_ _ / : simpl nomatch.

Lemma append_assoc (a b c : string) : (a +:+ b) +:+ c = a +:+ b +:+ c.
Proof. induction a as [|x a IH]; simpl; [done|by rewrite IH]. Qed.

Lemma append_nil_r (a : string) : a +:+ "" = a.
Proof. induction a as [|x a IH]; simpl; [done|by rewrite IH]. Qed.

Lemma prefix_starts_with (m x : string) :
  String.prefix m x = true ↔ starts_with m x.
Proof.
  revert x. induction m as [|a m IH]; intros x; simpl.
  - destruct x; (split; [intros _; by eexists|done]).
  - destruct x as [|b x].
    + split; [done|]. intros [v Hv]. discriminate.
    + simpl. destruct (ascii_dec a b) as [->|Hne].
      * rewrite IH. split; intros [v Hv]; exists v; simpl in *; congruence.
      * split; [done|]. intros [v Hv]. simpl in Hv. congruence.
Qed.

Lemma infixb_infix (m x : string) : infixb m x = true ↔ infix m x.
Proof.
  induction x as [|c x IH].
  - change (infixb m "") with (String.prefix m "" || false).
    rewrite orb_false_r, prefix_starts_with. split.
    + intros [v Hv]. exists "", v. done.
    + intros (u & v & Huv). destruct u; simpl in Huv; [by exists v|done].
  - change (infixb m (String c x))
      with (String.prefix m (String c x) || infixb m x).
    rewrite orb_true_iff, prefix_starts_with, IH. split.
    + intros [[v Hv]|(u & v & Huv)].
      * exists "", v. done.
      * exists (String c u), v. simpl. by rewrite Huv.
    + intros (u & v & Huv). destruct u as [|d u]; simpl in Huv.
      * left. by exists v.
      * right. exists u, v. congruence.
Qed.

Lemma not_infixb (m x : string) : infixb m x = false → ¬ infix m x.
Proof. intros Hb Hi. apply infixb_infix in Hi. congruence. Qed.

Lemma infix_trans (a b c : string) : infix a b → infix b c → infix a c.
Proof.
  intros (u & v & ->) (u' & v' & ->). exists (u' +:+ u), (v +:+ v').
  by rewrite !append_assoc.
Qed.

Lemma count_char_app (ch : ascii) (a b : string) :
  count_char ch (a +:+ b) = count_char ch a + count_char ch b.
Proof. induction a as [|x a IH]; simpl; [done|rewrite IH; lia]. Qed.

Lemma infix_count_char (ch : ascii) (m x : string) :
  infix m x → count_char ch m ≤ count_char ch x.
Proof. intros (u & v & ->). rewrite !count_char_app. lia. Qed.

Lemma contains_char_count (ch : ascii) (s : string) :
  contains_char ch s = true ↔ 1 ≤ count_char ch s.
Proof.
  induction s as [|c s IH]; simpl; [split; [done|lia]|].
  destruct (Ascii.eqb c ch); simpl; [split; [lia|done]|exact IH].
Qed.

(** A text that lacks the character [d] and occurs in [a ++ d ++ b] occurs
    in [a] or in [b]. *)
Lemma starts_with_app_sep (m v a b : string) (d : ascii) :
  contains_char d m = false → m +:+ v = a +:+ String d b → starts_with m a.
Proof.
  revert a. induction m as [|c m IH]; intros a Hd Heq; [by exists a|].
  simpl in Hd. apply orb_false_iff in Hd as [Hc Hm].
  destruct a as [|c' a]; simpl in Heq.
  - injection Heq as -> _. by rewrite Ascii.eqb_refl in Hc.
  - injection Heq as -> Heq. destruct (IH a Hm Heq) as [w ->]. by exists w.
Qed.

Lemma infix_app_sep (m a b : string) (d : ascii) :
  contains_char d m = false → infix m (a +:+ String d b) → infix m a ∨ infix m b.
Proof.
  intros Hd (u & v & Huv). revert a Huv.
  induction u as [|c u IH]; intros a Huv; simpl in Huv.
  - left. symmetry in Huv. destruct (starts_with_app_sep _ _ _ _ _ Hd Huv) as [w ->].
    by exists "", w.
  - destruct a as [|c' a]; simpl in Huv.
    + right. exists u, v. congruence.
    + injection Huv as -> Huv. destruct (IH a Huv) as [(u' & v' & ->)|Hb].
      * left. by exists (String c u'), v'.
      * by right.
Qed.

(** ** The shape of a rendering *)

Lemma ctx_lookup (r : Path) (only : bool) (pull : option string) :
  let ctx : gmap string value :=
    <["decaf_root" := VPath r]>
      (<["only_dependencies" := VBool only]>
         (<["pull_dependencies" := option_value pull]> ∅)) in
  ctx !! "decaf_root" = Some (VPath r) ∧
  ctx !! "only_dependencies" = Some (VBool only) ∧
  ctx !! "pull_dependencies" = Some (option_value pull).
Proof. repeat split; reflexivity. Qed.

(** The rendering, branch by branch *)
Lemma render_dockerfile_eq (r : Path) (only : bool) (pull : option string) :
  render_dockerfile r only pull
  = (if pull_given pull then "" else dependency_block) +:+
    nl +:+ nl +:+
    (if pull_given pull
     then nl +:+ "FROM " +:+ default "" pull +:+ " AS dependencies" +:+ nl
     else "") +:+
    final_header +:+
    (if only then ""
     else nl +:+ shell_setup_text +:+ "COPY " +:+ str r +:+ " /opt/decaf" +:+ nl
          +:+ patch_text +:+ compile_instruction +:+ nl) +:+
    entrypoint.
Proof.
  unfold render_dockerfile.
  destruct (ctx_lookup r only pull) as (Hr & Ho & Hp).
  set (ctx := insert _ _ _) in *. clearbody ctx.
  unfold dockerfile_template. cbn [render render_node eval].
  rewrite Hr, Ho, Hp.
  replace (truthy (Some (option_value pull))) with (pull_given pull)
    by (by destruct pull).
  cbn [truthy to_text].
  destruct (pull_given pull) eqn:Hg, only; cbn [negb];
    rewrite ?append_assoc, ?append_nil_r; try reflexivity.
  all: destruct pull; [|done]; reflexivity.
Qed.

Lemma render_pull_only (r : Path) (t : string) :
  t ≠ "" →
  render_dockerfile r true (Some t)
  = before_tag +:+ String " " (t +:+ String " " after_tag_only).
Proof.
  intros Ht. rewrite render_dockerfile_eq. destruct t as [|c t]; [done|].
  cbn [pull_given String.eqb negb default Ascii.eqb].
  rewrite ?append_assoc. reflexivity.
Qed.
Lemma render_pull_full (r : Path) (t : string) :
  t ≠ "" →
  render_dockerfile r false (Some t)
  = before_tag +:+ String " " (t +:+ String " "
      (after_tag_to_copy +:+ String " " (str r +:+ String " " after_root))).
Proof.
  intros Ht. rewrite render_dockerfile_eq. destruct t as [|c t]; [done|].
  cbn [pull_given String.eqb negb default]. rewrite ?append_assoc.
  unfold after_tag_to_copy. rewrite ?append_assoc. reflexivity.
Qed.
Lemma render_build_only (r : Path) :
  render_dockerfile r true None
  = dependency_block +:+ nl +:+ nl +:+ final_header +:+ entrypoint.
Proof. rewrite render_dockerfile_eq. reflexivity. Qed.

Lemma render_pull_stage (r : Path) (only : bool) (t : string) :
  t ≠ "" →
  ∃ post, render_dockerfile r only (Some t)
          = (nl +:+ nl +:+ nl) +:+ pulled_stage t +:+ final_header +:+ post.
Proof.
  intros Ht. rewrite render_dockerfile_eq. destruct t as [|c t]; [done|].
  cbn [pull_given String.eqb negb default].
  exists ((if only then ""
           else nl +:+ shell_setup_text +:+ "COPY " +:+ str r +:+ " /opt/decaf"
                +:+ nl +:+ patch_text +:+ compile_instruction +:+ nl)
          +:+ entrypoint).
  unfold pulled_stage. rewrite ?append_assoc. reflexivity.
Qed.

Lemma render_full_tail (r : Path) (pull : option string) :
  ∃ pre, render_dockerfile r false pull = pre +:+ final_stage (str r).
Proof.
  rewrite render_dockerfile_eq.
  exists ((if pull_given pull then "" else dependency_block) +:+ nl +:+ nl +:+
          (if pull_given pull
           then nl +:+ "FROM " +:+ default "" pull +:+ " AS dependencies" +:+ nl
           else "") +:+ nl +:+ nl +:+ nl).
  unfold final_stage, copy_instruction. rewrite ?append_assoc.
  do 4 f_equal.
Qed.

(** ** Paths *)

Lemma no_double_slash_name (n : string) :
  contains_char "/" n = false → ¬ infix "//" n.
Proof.
  intros Hn Hi. apply (infix_count_char "/") in Hi. simpl in Hi.
  destruct (contains_char "/" n) eqn:Hc; [done|].
  assert (¬ 1 ≤ count_char "/" n) by (rewrite <- contains_char_count; congruence).
  lia.
Qed.

Lemma no_double_slash_cons (n rest : string) :
  contains_char "/" n = false → ¬ infix "//" rest → ¬ starts_with "/" rest →
  ¬ infix "//" (n +:+ "/" +:+ rest).
Proof.
  intros Hn Hrest Hstart (u & v & Huv). revert u Huv.
  induction n as [|c n IH]; intros u Huv.
  - destruct u as [|c u]; simpl in Huv.
    + apply Hstart. exists v. simpl. by simplify_eq.
    + apply Hrest. exists u, v. by simplify_eq.
  - simpl in Hn. apply orb_false_iff in Hn as [Hc Hn].
    destruct u as [|c' u]; simpl in Huv.
    + injection Huv as -> _. done.
    + injection Huv as _ Huv. by apply (IH Hn u).
Qed.

Lemma concat_wf (ns : list string) :
  wf_names ns →
  ¬ infix "//" (String.concat "/" ns) ∧
  (ns ≠ [] → ¬ starts_with "/" (String.concat "/" ns)).
Proof.
  induction 1 as [|n ns [Hne Hn] Hns [IH1 IH2]]; simpl.
  - split; [|done]. by apply not_infixb.
  - assert (Hfirst : ∀ w, ¬ starts_with "/" (n +:+ w)).
    { intros w [v Hv]. destruct n as [|c n]; [done|]. simpl in *.
      apply orb_false_iff in Hn as [Hc _]. injection Hv as -> _. done. }
    destruct ns as [|n' ns'].
    + split; [by apply no_double_slash_name|].
      intros _. rewrite <- (append_nil_r n). apply Hfirst.
    + split; [|intros _; apply Hfirst].
      apply no_double_slash_cons; [done..|]. by apply IH2.
Qed.

(** A relative path with well-formed names, such as [relative_to] gives *)
Lemma str_no_double_slash (p : Path) :
  root p = "" → wf_names (names p) → ¬ infix "//" (str p).
Proof.
  intros Hr Hwf. pose proof (concat_wf _ Hwf) as [Hc _].
  unfold str. rewrite Hr.
  destruct (names p); [by apply not_infixb|exact Hc].
Qed.

Lemma split_on_no_sep (sep : ascii) (s : string) :
  Forall (λ n, contains_char sep n = false) (split_on sep s).
Proof.
  induction s as [|c s IH]; simpl; [by repeat constructor|].
  destruct (Ascii.eqb c sep) eqn:Hc; [by constructor|].
  destruct (split_on sep s) as [|w ws]; [by repeat constructor; simpl; rewrite Hc|].
  inversion IH as [|? ? Hw Hws]; subst. constructor; [|done].
  simpl. by rewrite Hc, Hw.
Qed.

Lemma parse_wf (s : string) : wf_names (names (parse s)).
Proof.
  apply Forall_forall. intros n Hn. simpl in Hn.
  apply list_elem_of_filter in Hn as [[Hne _] Hn]. split; [done|].
  pose proof (split_on_no_sep "/" s) as Hall.
  rewrite Forall_forall in Hall. by apply Hall.
Qed.

Lemma joinpath_wf (p o : Path) :
  wf_names (names p) → wf_names (names o) → wf_names (names (joinpath p o)).
Proof.
  intros Hp Ho. unfold joinpath. case_decide; [|done]. by apply Forall_app.
Qed.

Lemma relative_to_wf (p o r : Path) :
  wf_names (names p) → relative_to p o = Some r →
  root r = "" ∧ wf_names (names r).
Proof.
  intros Hp. unfold relative_to.
  repeat (case_decide || case_match); intros Hr; simplify_eq; simpl;
    (split; [done|]); by try apply Forall_drop.
Qed.

(** ** Tags *)

Lemma tag_inr (s v : string) :
  tag s = inr v →
  v = s ∧ count_char "/" s ≤ 1 ∧ contains_char ":" s = true.
Proof.
  unfold tag, wrap_exception.
  destruct (count_char "/" s <=? 1)%nat eqn:Hc; [|done].
  destruct (contains_char ":" s) eqn:Hv; [|done].
  intros [= <-]. apply Nat.leb_le in Hc. done.
Qed.

Lemma tag_inr_nonempty (s v : string) : tag s = inr v → s ≠ "".
Proof. intros (_ & _ & Hv)%tag_inr ->. done. Qed.

(** ** Texts that a rendering cannot contain *)

Lemma not_infix_join_sep (m a b : string) (d : ascii) :
  contains_char d m = false → ¬ infix m a → ¬ infix m b →
  ¬ infix m (a +:+ String d b).
Proof. intros Hd Ha Hb [?|?]%(infix_app_sep _ _ _ _ Hd); tauto. Qed.

Lemma not_infix_tag (m t : string) :
  2 ≤ count_char "/" m → count_char "/" t ≤ 1 → ¬ infix m t.
Proof. intros Hm Ht Hi%(infix_count_char "/"). lia. Qed.

Lemma copy_instruction_target (src : string) :
  infix "/opt/decaf" (copy_instruction src).
Proof.
  exists ("COPY " +:+ src +:+ " "), nl. unfold copy_instruction.
  rewrite !append_assoc. reflexivity.
Qed.

(** A rendering with a pulled image has no two adjacent [/]: its fixed
    texts have none, an accepted tag has at most one [/], and the names of
    a relative path are joined by single separators.  The dependency block
    has the address of the Rivet bootstrap, so it cannot occur. *)
Lemma pulled_rendering (r : Path) (only : bool) (t : string) :
  tag t = inr t → root r = "" → wf_names (names r) →
  ¬ infix dependency_block (render_dockerfile r only (Some t)) ∧
  ∃ post, render_dockerfile r only (Some t)
          = (nl +:+ nl +:+ nl) +:+ pulled_stage t +:+ final_header +:+ post.
Proof.
  intros Ht Hroot Hwf.
  pose proof (tag_inr_nonempty _ _ Ht) as Hne.
  apply tag_inr in Ht as (_ & Hslash & _).
  split; [|by apply render_pull_stage].
  assert (Hd : infix "//" dependency_block)
    by (apply infixb_infix; vm_compute; reflexivity).
  intros Hb. pose proof (infix_trans _ _ _ Hd Hb) as Hi. revert Hi.
  assert (Ht : ¬ infix "//" t) by (apply not_infix_tag; [simpl; lia|done]).
  destruct only.
  - rewrite render_pull_only by done.
    repeat apply not_infix_join_sep; try done;
      apply not_infixb; vm_compute; reflexivity.
  - rewrite render_pull_full by done.
    repeat apply not_infix_join_sep; try done;
      try (apply not_infixb; vm_compute; reflexivity).
    by apply str_no_double_slash.
Qed.

(** C5: when a pull-dependencies tag is given, the rendered Dockerfile does
    not contain the dependency-install block (the builder stage with the
    Spack manifest and installs, and the dependencies stage with the Rivet
    bootstrap); it contains instead, before the final stage, a stage named
    dependencies that is based FROM the given tag.  The tag is one that the
    command line accepts and the source tree is a relative path as
    [relative_to] gives it. *)
Theorem pull_dependencies_replaces_dependency_block
    (r : Path) (only : bool) (t : string) :
  tag t = inr t → root r = "" → wf_names (names r) →
  let out := render_dockerfile r only (Some t) in
  ¬ infix dependency_block out ∧
  (∃ post, out = (nl +:+ nl +:+ nl) +:+ pulled_stage t +:+ final_header +:+ post) ∧
  infix "spack.yaml" dependency_block ∧
  infix "spack install" dependency_block ∧
  infix "./rivet-bootstrap" dependency_block.
Proof.
  intros Ht Hroot Hwf out.
  destruct (pulled_rendering r only t Ht Hroot Hwf) as [Hno Hstage].
  split; [done|]. split; [done|].
  repeat split; apply infixb_infix; vm_compute; reflexivity.
Qed.

Lemma pull_dependencies_replaces_dependency_block_witness :
  let out :=
    render_dockerfile (parse "decaf") false (Some "thobson2/decaf-fermi:0.2.0-base") in
  ¬ infix dependency_block out ∧
  infix (pulled_stage "thobson2/decaf-fermi:0.2.0-base") out.
Proof.
  destruct (pull_dependencies_replaces_dependency_block
              (parse "decaf") false "thobson2/decaf-fermi:0.2.0-base")
    as (H1 & [post H2] & _).
  - reflexivity.
  - reflexivity.
  - by repeat constructor.
  - split; [exact H1|]. exists (nl +:+ nl +:+ nl), (final_header +:+ post). exact H2.
Defined.

(** A rendering of the dependencies alone names [/opt/decaf] nowhere and
    does not have the compile instruction: the fixed texts do not, and an
    accepted tag, with at most one [/], is too short of separators to hold
    [/opt/decaf] or the [/opt/venv/bin/activate] of the instruction. *)
Lemma only_rendering (r : Path) (pull : option string) :
  pull_ok pull →
  ¬ infix "/opt/decaf" (render_dockerfile r true pull) ∧
  ¬ infix compile_instruction (render_dockerfile r true pull).
Proof.
  intros Hpull. destruct pull as [t|].
  - pose proof (tag_inr_nonempty _ _ Hpull) as Hne.
    apply tag_inr in Hpull as (_ & Hslash & _).
    rewrite render_pull_only by done. split.
    + repeat apply not_infix_join_sep; try done;
        try (apply not_infixb; vm_compute; reflexivity).
      apply not_infix_tag; [simpl; lia|done].
    + assert (Hact : infix "/opt/venv/bin/activate" compile_instruction)
        by (apply infixb_infix; vm_compute; reflexivity).
      intros Hi. pose proof (infix_trans _ _ _ Hact Hi) as Hi'. revert Hi'.
      repeat apply not_infix_join_sep; try done;
        try (apply not_infixb; vm_compute; reflexivity).
      apply not_infix_tag; [simpl; lia|done].
  - rewrite render_build_only.
    split; apply not_infixb; vm_compute; reflexivity.
Qed.

(** C6: with only_dependencies set, the rendered Dockerfile has no COPY of
    a source tree into /opt/decaf and does not have the instruction that
    compiles the source tree (the RUN of [go.sh cmake] and [go.sh make]);
    without it, the rendering ends in the final stage, which copies the
    source tree into the image and runs that instruction with its two
    build commands.  The pull-dependencies value is one that the command
    line accepts. *)
Theorem only_dependencies_omits_source_build (r : Path) (pull : option string) :
  pull_ok pull →
  (let out := render_dockerfile r true pull in
   (∀ src, ¬ infix (copy_instruction src) out) ∧
   ¬ infix compile_instruction out) ∧
  (let out := render_dockerfile r false pull in
   ends_with (final_stage (str r)) out ∧
   infix (copy_instruction (str r)) (final_stage (str r)) ∧
   infix compile_instruction (final_stage (str r)) ∧
   infix "ENV=docker ./go.sh cmake" compile_instruction ∧
   infix "ENV=docker ./go.sh make" compile_instruction).
Proof.
  intros Hpull. split.
  - destruct (only_rendering r pull Hpull) as (Hcopy & Hcompile). split; [|done].
    intros src Hi. apply Hcopy.
    eapply infix_trans; [apply copy_instruction_target|exact Hi].
  - split; [apply render_full_tail|].
    split.
    { exists ("FROM dependencies AS final" +:+ nl +:+ nl +:+ nl +:+ shell_setup_text),
             (patch_text +:+ compile_instruction +:+ nl +:+ entrypoint).
      unfold final_stage. rewrite !append_assoc. reflexivity. }
    split.
    { exists ("FROM dependencies AS final" +:+ nl +:+ nl +:+ nl +:+ shell_setup_text
               +:+ copy_instruction (str r) +:+ patch_text),
             (nl +:+ entrypoint).
      unfold final_stage. rewrite !append_assoc. reflexivity. }
    split; apply infixb_infix; vm_compute; reflexivity.
Qed.

Lemma only_dependencies_omits_source_build_witness :
  ¬ infix compile_instruction
      (render_dockerfile (parse "decaf") true (Some "thobson2/decaf-fermi:0.2.0-base")) ∧
  ends_with (final_stage "decaf")
      (render_dockerfile (parse "decaf") false (Some "thobson2/decaf-fermi:0.2.0-base")).
Proof.
  destruct (only_dependencies_omits_source_build
              (parse "decaf") (Some "thobson2/decaf-fermi:0.2.0-base"))
    as ((_ & H1) & H2 & _).
  - reflexivity.
  - split; [exact H1|exact H2].
Defined.

(** ** The script run in the container *)

Lemma call_run_docker_image (env : Env) (t : string) (i : bool) (st : state env) :
  call env MainRunDockerImage
    (<["tag" := VStr t]> (<["interactive" := VBool i]> ∅)) st
  = main_run_docker_image env t i st.
Proof. reflexivity. Qed.

(** C10: the generated script begins, for either value of the interactive
    flag, with the same environment bootstrap and working-directory setup;
    it ends in the interactive shell ([exec bash]) and has no [mpirun] when
    the flag is set, and ends in the fixed [mpirun] command otherwise.
    Both run commands pass this script to the shell of the container, and
    so does the command line of run-docker-image. *)
Theorem make_script_ending :
  (∀ interactive,
     starts_with (setupscript +:+ hermeticscript) (_make_script interactive)) ∧
  ends_with intscript (_make_script true) ∧
  ¬ infix "mpirun" (_make_script true) ∧
  ends_with runscript (_make_script false) ∧
  ¬ infix "exec bash" (_make_script false) ∧
  intscript = "exec bash" +:+ nl ∧
  runscript
  = "mpirun --hostfile hostfile_workflow.txt -np 4 ./decaf-henson_python" +:+ nl ∧
  (∀ env t interactive st,
     ∃ rc, trace env (main_run_docker_image env t interactive st).1
           = trace env st
             ++ [(mkCmd (docker_run_argv t (_make_script interactive)) None None,
                  rc)]) ∧
  (∀ env interactive st,
     ∃ rc, trace env (main_run_singularity_image env interactive st).1
           = trace env st
             ++ [(mkCmd (singularity_exec_argv "./decaf-fermi.sif"
                           (_make_script interactive)) None None, rc)]) ∧
  (∀ (env : Env) (f : FS env) (t : option string) (interactive : bool),
     parser_ok env f → (∀ x, t = Some x → tag x = inr x) →
     ∃ rc, trace env (cli env (RunDockerImage t interactive) (start env f)).1
           = [(mkCmd (docker_run_argv (default "decaf-fermi:latest" t)
                        (_make_script interactive)) None None, rc)]).
Proof.
  split; [|split; [|split; [|split; [|split; [|split; [|split; [|split; [|split]]]]]]]].
  - intros [|]; [by exists intscript|by exists runscript].
  - by exists (setupscript +:+ hermeticscript).
  - apply not_infixb. vm_compute. reflexivity.
  - by exists (setupscript +:+ hermeticscript).
  - apply not_infixb. vm_compute. reflexivity.
  - reflexivity.
  - reflexivity.
  - intros env t i st. unfold main_run_docker_image, run.
    destruct (spawn env _ _) as [f rc]. exists rc.
    by destruct (_ && _).
  - intros env i st. unfold main_run_singularity_image, run.
    destruct (spawn env _ _) as [f rc]. exists rc.
    by destruct (_ && _).
  - intros env f t i [p Hp] Ht.
    unfold cli, bind, lift, tag_option. simpl. rewrite Hp.
    assert (Htag : tag (default "decaf-fermi:latest" t)
                   = inr (default "decaf-fermi:latest" t))
      by (destruct t; [by apply Ht|reflexivity]).
    rewrite Htag. simpl. rewrite call_run_docker_image.
    unfold main_run_docker_image, run, start. simpl.
    destruct (spawn env _ _) as [f' rc]. exists rc.
    by destruct (rc =? 0)%Z.
Qed.

(** ** The runs of build-docker-image *)

Lemma main_build_docker_image_run (env : Env) (f : FS env) (root : Path)
    (repo branch t : string) (only : bool) (pull : option string) :
  let r := main_build_docker_image env root repo branch t only pull (start env f) in
  build_run env f root repo branch t only pull (trace env r.1) r.2.
Proof.
  unfold main_build_docker_image, bind, exists_, run, ret, raise, start. simpl.
  destruct (path_exists env f root) eqn:Hex; simpl.
  - assert (Hpre : fetched env f root repo branch []) by by constructor.
    destruct (relative_to root (getcwd env)) as [rel|] eqn:Hrel; simpl;
      [|by apply not_relative].
    destruct (spawn env f _) as [f1 rc1] eqn:Hb. simpl.
    destruct (Z.eqb_spec rc1 0) as [->|Hrc1]; simpl;
      [|by apply (build_failed _ _ _ _ _ _ _ _ [])].
    destruct (contains_char "/" t) eqn:Hs; simpl;
      [|by apply (built_local _ _ _ _ _ _ _ _ [])].
    destruct (spawn env f1 _) as [f2 rc2] eqn:Hp. simpl.
    destruct (Z.eqb_spec rc2 0) as [->|Hrc2]; simpl.
    + by apply (pushed _ _ _ _ _ _ _ _ []).
    + by apply (push_failed _ _ _ _ _ _ _ _ []).
  - destruct (spawn env f _) as [f0 rc0] eqn:Hc. simpl.
    destruct (Z.eqb_spec rc0 0) as [->|Hrc0]; simpl.
    2: { apply clone_failed; [done| |done]. unfold clone_cmd. by rewrite Hc. }
    destruct (spawn env f0 _) as [f0' rc0'] eqn:Hco. simpl.
    assert (Hpre : fetched env f root repo branch
                     [(clone_cmd repo root, 0%Z); (checkout_cmd branch root, rc0')]).
    { apply fetched_cloned; [done|]. unfold clone_cmd. by rewrite Hc. }
    destruct (relative_to root (getcwd env)) as [rel|] eqn:Hrel; simpl;
      [|by apply not_relative].
    destruct (spawn env f0' _) as [f1 rc1] eqn:Hb. simpl.
    destruct (Z.eqb_spec rc1 0) as [->|Hrc1]; simpl;
      [|by apply (build_failed _ _ _ _ _ _ _ _ [_; _])].
    destruct (contains_char "/" t) eqn:Hs; simpl;
      [|by apply (built_local _ _ _ _ _ _ _ _ [_; _])].
    destruct (spawn env f1 _) as [f2 rc2] eqn:Hp. simpl.
    destruct (Z.eqb_spec rc2 0) as [->|Hrc2]; simpl.
    + by apply (pushed _ _ _ _ _ _ _ _ [_; _]).
    + by apply (push_failed _ _ _ _ _ _ _ _ [_; _]).
Qed.

(** Membership in an explicit trace, case by case *)
Ltac trace_elems :=
  repeat match goal with
  | H : _ ∈ _ ++ _ |- _ => apply elem_of_app in H as [H|H]
  | H : _ ∈ _ :: _ |- _ => apply elem_of_cons in H as [H|H]
  | H : _ ∈ [] |- _ => apply elem_of_nil in H; destruct H
  end.

(** The cases of a run of build-docker-image, from [build_run] *)
Ltac build_cases env f root repo branch t only pull :=
  let Hrun := fresh "Hrun" in
  pose proof (main_build_docker_image_run env f root repo branch t only pull) as Hrun;
  cbv zeta in Hrun |- *;
  generalize dependent
    (main_build_docker_image env root repo branch t only pull (start env f));
  intros [st out] Hrun; simpl in Hrun |- *;
  generalize dependent (trace env st); clear st;
  intros tr Hrun;
  destruct Hrun as [rc Hex Hclone Hrc|pre Hpre Hrel|pre rel rc Hpre Hrel Hrc
                   |pre rel Hpre Hrel Hslash|pre rel rc Hpre Hrel Hslash Hrc
                   |pre rel Hpre Hrel Hslash];
  try (destruct Hpre as [Hex|rc0 Hex Hclone]).

(** C2, amended: in every run of build-docker-image, a run of the
    container build tool targets the stage dependencies when
    only_dependencies is set and the stage final otherwise; the build tool
    is run exactly when the build step is reached (the source tree is
    written under the working directory, and it is present or its clone
    exits with 0); and the tag is pushed, right after the build, if and
    only if the tag has a [/] and the build has exited with 0. *)
Theorem build_target_and_push (env : Env) (f : FS env) (root : Path)
    (repo branch t : string) (only : bool) (pull : option string) :
  let r := main_build_docker_image env root repo branch t only pull (start env f) in
  let tr := trace env r.1 in
  (∀ c rc, (c, rc) ∈ tr → is_docker_build c = true →
     argv c = docker_build_argv t (target_of only)) ∧
  ((∃ c rc, (c, rc) ∈ tr ∧ is_docker_build c = true)
   ↔ reaches_build env f root repo) ∧
  ((∃ rc, (push_cmd t, rc) ∈ tr)
   ↔ contains_char "/" t = true ∧
     ∃ c, is_docker_build c = true ∧ (c, 0%Z) ∈ tr) ∧
  (∀ rc, (push_cmd t, rc) ∈ tr →
     ∃ pre c, is_docker_build c = true ∧
       tr = pre ++ [ (c, 0%Z); (push_cmd t, rc) ]).
Proof.
  build_cases env f root repo branch t only pull.
  all: split; [intros c rc' Hin Hb; trace_elems; simplify_eq; done|].
  all: split; [unfold reaches_build; rewrite ?Hrel; split;
                 [intros (c & rc' & Hin & Hb); trace_elems; simplify_eq;
                    try done; (split; [by eexists|]; auto)
                 |intros [Hs Hr]; first [by destruct Hs | destruct Hr; congruence
                    | (eexists _, _; split; [apply elem_of_app; right; apply elem_of_cons; left; reflexivity|done]) ]]|].
  all: split.
  all: try (split;
    [intros (rc' & Hin); trace_elems; simplify_eq; try done;
       (split; [done|]; eexists; split;
          [|apply elem_of_app; right; apply elem_of_cons; left; reflexivity]; done)
    |intros (Hs & c & Hb & Hin); trace_elems; simplify_eq; try done;
       try congruence;
       (eexists; apply elem_of_app; right; apply elem_of_cons; right;
        apply elem_of_cons; left; reflexivity)]).
  all: intros rc' Hin; trace_elems; simplify_eq; try done.
  all: eexists _, _; (split; [|reflexivity]); reflexivity.
Qed.

(** C3: the subprocesses of build-docker-image are the clone, the
    checkout, the container build and the push.  A clone, build or push
    that exits with a non-zero status is the last subprocess of the run and
    the run fails with its [CalledProcessError].  The checkout is the one
    exception: whatever its exit status, the run never fails with the error
    of the checkout and goes on to the rendering, that is to the build when
    the source tree is written under the working directory and to the path
    error when it is not. *)
Theorem build_steps_abort_except_checkout (env : Env) (f : FS env) (root : Path)
    (repo branch t : string) (only : bool) (pull : option string) :
  let r := main_build_docker_image env root repo branch t only pull (start env f) in
  let tr := trace env r.1 in
  (∀ c rc, (c, rc) ∈ tr →
     c = clone_cmd repo root ∨ c = checkout_cmd branch root ∨
     is_docker_build c = true ∨ c = push_cmd t) ∧
  (∀ c rc, (c, rc) ∈ tr → rc ≠ 0%Z → c ≠ checkout_cmd branch root →
     r.2 = inl (CalledProcessError rc (argv c)) ∧ ∃ pre, tr = pre ++ [ (c, rc) ]) ∧
  (∀ rc, (checkout_cmd branch root, rc) ∈ tr →
     (∀ rc', r.2 ≠ inl (CalledProcessError rc' (argv (checkout_cmd branch root)))) ∧
     (is_Some (relative_to root (getcwd env)) →
        ∃ c rc' post, is_docker_build c = true ∧
          tr = [ (clone_cmd repo root, 0%Z); (checkout_cmd branch root, rc);
                 (c, rc') ] ++ post) ∧
     (relative_to root (getcwd env) = None →
        r.2 = inl (ValueError "not in the subpath"))).
Proof.
  build_cases env f root repo branch t only pull.
  all: split; [intros c rc' Hin; trace_elems; simplify_eq; auto|].
  all: split.
  all: try (intros c rc' Hin Hne Hco; trace_elems; simplify_eq; try done;
            (split; [reflexivity|]);
            first [ by exists [] | by eexists
                  | eexists (_ ++ [_]); rewrite <- app_assoc; reflexivity ]).
  all: intros rc' Hin; trace_elems; simplify_eq.
  all: rewrite ?Hrel; (split; [intros ? ?; simpl in *; discriminate|]);
    (split; [|done]).
  all: first [ by intros [? ?]
             | intros _; eexists _, _, _; (split; [|reflexivity]); reflexivity ].
Qed.

(** C9, amended: in any dependency mode, when the source tree is not
    written under the working directory (its components do not begin with
    those of the working directory, nothing being normalised), the command
    fails and runs neither the container build tool nor a push; it fails
    with the path error ([ValueError]) when the source tree is present or
    its clone exits with 0, and with the error of the clone when the source
    tree is absent and the clone fails. *)
Theorem build_outside_cwd_fails (env : Env) (f : FS env) (root : Path)
    (repo branch t : string) (only : bool) (pull : option string) :
  relative_to root (getcwd env) = None →
  let r := main_build_docker_image env root repo branch t only pull (start env f) in
  (∃ e, r.2 = inl e) ∧
  (∀ c rc, (c, rc) ∈ trace env r.1 → is_docker_build c = false ∧ c ≠ push_cmd t) ∧
  (path_exists env f root = true ∨ (spawn env f (clone_cmd repo root)).2 = 0%Z →
   r.2 = inl (ValueError "not in the subpath")) ∧
  (path_exists env f root = false → (spawn env f (clone_cmd repo root)).2 ≠ 0%Z →
   r.2 = inl (CalledProcessError (spawn env f (clone_cmd repo root)).2
                (argv (clone_cmd repo root)))).
Proof.
  intros Hnone.
  build_cases env f root repo branch t only pull; try congruence.
  all: split; [by eexists|].
  all: split; [intros c rc' Hin; trace_elems; by simplify_eq|].
  all: split; [try done; intros [?|?]; congruence|].
  all: intros ? ?; first [ congruence | subst; reflexivity ].
Qed.

Lemma build_outside_cwd_fails_witness :
  let env := toy_env home all_ok in
  let r :=
    main_build_docker_image env (parse "/srv/decaf") "repo" "branch"
      "decaf-fermi:latest" false None (start env [parse "/srv/decaf"]) in
  r.2 = inl (ValueError "not in the subpath") ∧ trace env r.1 = [].
Proof.
  destruct (build_outside_cwd_fails (toy_env home all_ok) [parse "/srv/decaf"]
              (parse "/srv/decaf") "repo" "branch" "decaf-fermi:latest" false None)
    as (_ & _ & H & _).
  - reflexivity.
  - split; [apply H; left; reflexivity|reflexivity].
Defined.

(** C9, as stated, fails.  A source tree written [/home/u/../other] is not
    a descendant of the working directory [/home/u], yet [relative_to]
    accepts it, the command succeeds and the build tool runs with a COPY of
    [../other].  And when the source tree is absent and its clone fails,
    the command fails with the error of the clone, not with a path error. *)
Lemma sibling_source_tree_is_built :
  (let env := toy_env home all_ok in
   let r :=
     cli env (BuildDockerImage (Some "/home/u/../other") None None None false None)
       (start env [home; parse "/home/u/../other"]) in
   r.2 = inr tt ∧
   trace env r.1
   = [ (build_cmd "decaf-fermi:latest" false
          (render_dockerfile (parse "../other") false None), 0%Z) ] ∧
   ¬ descendant_of home (parse "/home/u/../other")) ∧
  (let env := toy_env home (failing "git" "clone" 128) in
   let r :=
     cli env (BuildDockerImage (Some "/srv/decaf") None None None false None)
       (start env [home]) in
   relative_to (parse "/srv/decaf") home = None ∧
   r.2 = inl (CalledProcessError 128
                [ "git"; "clone"; "git@bitbucket.org:tpeterka1/decaf.git";
                  "/srv/decaf" ])).
Proof.
  split; cbv zeta.
  - split; [vm_compute; reflexivity|]. split; [vm_compute; reflexivity|].
    intros [_ (rest & _ & Hrest)]. vm_compute in Hrest. discriminate.
  - split; vm_compute; reflexivity.
Qed.

(** C2, as stated, fails: when the build exits with a non-zero status, the
    tag has a [/] and no push is run; and when the clone fails, the build
    tool is not run at all. *)
Lemma push_skipped_when_build_fails :
  (let env := toy_env home (failing "docker" "build" 1) in
   let r :=
     cli env (BuildDockerImage None None None (Some "foo/bar:0.2.0-base") true None)
       (start env [home; parse "/home/u/decaf"]) in
   contains_char "/" "foo/bar:0.2.0-base" = true ∧
   map (λ x, (argv x.1, x.2)) (trace env r.1)
   = [ (docker_build_argv "foo/bar:0.2.0-base" "dependencies", 1%Z) ] ∧
   ¬ ∃ rc, (push_cmd "foo/bar:0.2.0-base", rc) ∈ trace env r.1) ∧
  (let env := toy_env home (failing "git" "clone" 128) in
   let r :=
     cli env (BuildDockerImage None None None (Some "bar:latest") false None)
       (start env [home]) in
   map (λ x, (argv x.1, x.2)) (trace env r.1)
   = [ ([ "git"; "clone"; "git@bitbucket.org:tpeterka1/decaf.git"; "/home/u/decaf" ],
        128%Z) ] ∧
   ¬ ∃ c rc, (c, rc) ∈ trace env r.1 ∧ is_docker_build c = true).
Proof.
  split; cbv zeta.
  - split; [reflexivity|]. split; [vm_compute; reflexivity|].
    intros [rc Hin].
    apply (list_elem_of_fmap_2 (λ x, (argv x.1, x.2))) in Hin.
    set (l := fmap _ _) in Hin. vm_compute in l. subst l.
    trace_elems. discriminate.
  - split; [vm_compute; reflexivity|].
    intros (c & rc & Hin & Hb).
    apply (list_elem_of_fmap_2' (λ x, is_docker_build x.1) _ _ true) in Hin;
      [|simpl; by rewrite Hb].
    set (l := fmap _ _) in Hin. vm_compute in l. subst l.
    trace_elems. discriminate.
Qed.

(** ** The Dockerfile given to the build *)

Lemma build_in_trace (env : Env) (f : FS env) (root : Path)
    (repo branch t : string) (only : bool) (pull : option string)
    (c : Cmd) (rc : Z) :
  (c, rc) ∈ trace env
    (main_build_docker_image env root repo branch t only pull (start env f)).1 →
  is_docker_build c = true →
  ∃ r, relative_to root (getcwd env) = Some r ∧
       c = build_cmd t only (render_dockerfile r only pull).
Proof.
  revert c rc.
  build_cases env f root repo branch t only pull.
  all: intros c rc' Hin Hb; trace_elems; simplify_eq; by eexists.
Qed.

(** C4: the rendering is a function of its three parameters alone.  Two
    contexts that agree on decaf_root, only_dependencies and
    pull_dependencies render the template to the same text, whatever else
    they hold; and in two runs of build-docker-image, in any two
    environments and with any tags and repositories, that agree on the two
    flags and on the source tree relative to the working directory, the
    build tool is given the same Dockerfile, which is the rendering of
    these three values. *)
Theorem render_depends_on_parameters_only :
  (∀ ctx1 ctx2 : gmap string value,
     ctx1 !! "decaf_root" = ctx2 !! "decaf_root" →
     ctx1 !! "only_dependencies" = ctx2 !! "only_dependencies" →
     ctx1 !! "pull_dependencies" = ctx2 !! "pull_dependencies" →
     render ctx1 dockerfile_template = render ctx2 dockerfile_template) ∧
  (∀ (env1 env2 : Env) (f1 : FS env1) (f2 : FS env2) (root1 root2 : Path)
       (repo1 repo2 branch1 branch2 t1 t2 : string) (only : bool)
       (pull : option string) (rel : Path) (c1 c2 : Cmd) (rc1 rc2 : Z),
     relative_to root1 (getcwd env1) = Some rel →
     relative_to root2 (getcwd env2) = Some rel →
     (c1, rc1) ∈ trace env1
       (main_build_docker_image env1 root1 repo1 branch1 t1 only pull
          (start env1 f1)).1 →
     (c2, rc2) ∈ trace env2
       (main_build_docker_image env2 root2 repo2 branch2 t2 only pull
          (start env2 f2)).1 →
     is_docker_build c1 = true → is_docker_build c2 = true →
     cmd_input c1 = Some (render_dockerfile rel only pull) ∧
     cmd_input c2 = cmd_input c1).
Proof.
  split.
  - intros ctx1 ctx2 Hr Ho Hp. unfold dockerfile_template.
    cbn [render render_node eval]. by rewrite Hr, Ho, Hp.
  - intros env1 env2 f1 f2 root1 root2 repo1 repo2 branch1 branch2 t1 t2 only
      pull rel c1 c2 rc1 rc2 H1 H2 Hin1 Hin2 Hb1 Hb2.
    destruct (build_in_trace _ _ _ _ _ _ _ _ _ _ Hin1 Hb1) as (r1 & Hr1 & ->).
    destruct (build_in_trace _ _ _ _ _ _ _ _ _ _ Hin2 Hb2) as (r2 & Hr2 & ->).
    by simplify_eq.
Qed.

(** ** Tag validation *)

Lemma has_char_count (c : ascii) (s : string) :
  has_char c s ↔ 1 ≤ count_char c s.
Proof.
  split.
  - intros (a & b & ->). rewrite count_char_app. simpl.
    rewrite Ascii.eqb_refl. lia.
  - induction s as [|x s IH]; simpl; [lia|].
    destruct (Ascii.eqb x c) eqn:Hx.
    + apply Ascii.eqb_eq in Hx as ->. intros _. by exists "", s.
    + intros (a & b & ->)%IH. by exists (String x a), b.
Qed.

Lemma has_two_count (c : ascii) (s : string) :
  has_two c s ↔ 2 ≤ count_char c s.
Proof.
  split.
  - intros (a & b & d & ->). rewrite count_char_app. simpl.
    rewrite count_char_app. simpl. rewrite Ascii.eqb_refl. lia.
  - induction s as [|x s IH]; simpl; [lia|].
    destruct (Ascii.eqb x c) eqn:Hx.
    + apply Ascii.eqb_eq in Hx as ->. intros Hc.
      assert (has_char c s) as (b & d & ->) by (apply has_char_count; lia).
      by exists "", b, d.
    + intros (a & b & d & ->)%IH. by exists (String x a), b, d.
Qed.

Lemma tag_accepts (s : string) :
  (∃ v, tag s = inr v) ↔ ¬ has_two "/" s ∧ has_char ":" s.
Proof.
  rewrite has_two_count, has_char_count, <- contains_char_count.
  unfold tag, wrap_exception.
  destruct (Nat.leb_spec (count_char "/" s) 1) as [Hle|Hgt]; simpl.
  - destruct (contains_char ":" s); simpl.
    + split; [intros _; split; [lia|done]|by eexists].
    + split; [by intros [v Hv]|by intros [_ ?]].
  - split; [by intros [v Hv]|intros [? _]; lia].
Qed.

Lemma tag_cases (s : string) :
  tag s = inr s ∨ ∃ msg, tag s = inl (ArgumentTypeError msg).
Proof.
  unfold tag, wrap_exception.
  destruct (_ <=? _)%nat; simpl; [|by right; eexists].
  destruct (contains_char ":" s); simpl; [by left|by right; eexists].
Qed.

Lemma tag_rejects (s : string) :
  ¬ (¬ has_two "/" s ∧ has_char ":" s) →
  ∃ msg, tag s = inl (ArgumentTypeError msg).
Proof.
  intros Hno. destruct (tag_cases s) as [Hok|Hbad]; [|done].
  destruct Hno. apply tag_accepts. by eexists.
Qed.

Lemma cli_rejects_tag (env : Env) (f : FS env) (line : command_line) (s : string) :
  parser_ok env f → s ∈ tags_of line →
  (∃ msg, tag s = inl (ArgumentTypeError msg)) →
  ∃ msg, cli env line (start env f) = (start env f, inl (UsageError msg)).
Proof.
  intros [p Hp] Hin [msg Hbad].
  unfold cli, bind, lift, tag_option. simpl. rewrite Hp.
  destruct line as [|root repo branch t only pull|t i|t sf|sf i]; simpl in Hin.
  - by apply elem_of_nil in Hin.
  - destruct t as [t|]; simpl in Hin.
    + destruct (tag_cases t) as [Ht|[m Ht]]; simpl; rewrite Ht; simpl;
        [|by eexists].
      destruct pull as [pl|]; simpl in Hin; trace_elems; subst;
        try (rewrite Hbad in Ht; discriminate).
      rewrite Hbad. simpl. by eexists.
    + destruct pull as [pl|]; simpl in Hin; trace_elems; subst.
      rewrite Hbad. simpl. by eexists.
  - destruct t as [t|]; simpl in Hin; trace_elems; subst.
    simpl. rewrite Hbad. simpl. by eexists.
  - destruct t as [t|]; simpl in Hin; trace_elems; subst.
    simpl. rewrite Hbad. simpl. by eexists.
  - by apply elem_of_nil in Hin.
Qed.

(** C7: an image tag is accepted if and only if it does not have two [/]
    and has a [:]; the accepted value is the tag itself.  A tag that
    violates this is refused with an [ArgumentTypeError], and a command
    line that gives such a tag ends in a usage error with no subprocess
    run (the state, with its empty trace, is unchanged).  The tag
    [user/image:latest] passes; [a/b/c:latest] and [image] fail. *)
Theorem tag_validation :
  (∀ s, (∃ v, tag s = inr v) ↔ ¬ has_two "/" s ∧ has_char ":" s) ∧
  (∀ s v, tag s = inr v → v = s) ∧
  (∀ s, ¬ (¬ has_two "/" s ∧ has_char ":" s) →
     ∃ msg, tag s = inl (ArgumentTypeError msg)) ∧
  (∀ (env : Env) (f : FS env) (line : command_line) (s : string),
     parser_ok env f → s ∈ tags_of line →
     ¬ (¬ has_two "/" s ∧ has_char ":" s) →
     ∃ msg, cli env line (start env f) = (start env f, inl (UsageError msg))) ∧
  tag "user/image:latest" = inr "user/image:latest" ∧
  (∃ msg, tag "a/b/c:latest" = inl (ArgumentTypeError msg)) ∧
  (∃ msg, tag "image" = inl (ArgumentTypeError msg)).
Proof.
  split; [exact tag_accepts|].
  split; [by intros s v (-> & _)%tag_inr|].
  split; [exact tag_rejects|].
  split.
  { intros env f line s Hp Hin Hbad.
    by eapply cli_rejects_tag, tag_rejects. }
  split; [reflexivity|]. split; by eexists.
Qed.

(** ** Image-file validation *)

Lemma rfind_app_found (ch : ascii) (a b : string) (i : nat) :
  rfind ch b = Some i → rfind ch (a +:+ b) = Some (String.length a + i).
Proof. intros Hb. induction a as [|x a IH]; simpl; [done|by rewrite IH]. Qed.

Lemma length_append (a b : string) :
  String.length (a +:+ b) = String.length a + String.length b.
Proof. induction a as [|x a IH]; simpl; [done|by rewrite IH]. Qed.

Lemma drop_string_append (a b : string) :
  drop_string (String.length a) (a +:+ b) = b.
Proof. induction a as [|x a IH]; simpl; [by destruct b|done]. Qed.

Lemma drop_string_cons (i : nat) (s : string) (c : ascii) (x : string) :
  drop_string i s = String c x →
  ∃ a, s = a +:+ String c x ∧ String.length a = i.
Proof.
  revert s. induction i as [|i IH]; intros s Hs.
  - exists "". by destruct s.
  - destruct s as [|y s]; simpl in Hs; [done|].
    destruct (IH s Hs) as (a & -> & <-). by exists (String y a).
Qed.

(** The suffix of a path is [.sif] when its name is a non-empty stem
    followed by [.sif]. *)
Lemma suffix_sif (p : Path) :
  suffix p = ".sif" ↔ ∃ stem, stem ≠ "" ∧ name p = stem +:+ ".sif".
Proof.
  unfold suffix. split.
  - destruct (rfind "." (name p)) as [i|]; [|done].
    destruct (0 <? i)%nat eqn:Hi; simpl; [|by destruct (_ <? _)%nat].
    destruct (i <? _)%nat; [|done].
    intros (a & Ha & Hlen)%drop_string_cons. exists a. split; [|done].
    intros ->. simpl in Hlen. subst i. done.
  - intros (stem & Hne & ->).
    rewrite (rfind_app_found _ stem ".sif" 0) by reflexivity.
    rewrite length_append, Nat.add_0_r. simpl String.length at 3.
    assert (0 < String.length stem) by (destruct stem; [done|simpl; lia]).
    repeat match goal with
           | |- context [(?a <? ?b)%nat] =>
               rewrite (proj2 (Nat.ltb_lt a b)) by (simpl; lia)
           end.
    simpl. apply drop_string_append.
Qed.

Lemma sif_cases (env : Env) (f : FS env) (s : string) :
  let path := resolve (getcwd env) (parse s) in
  (sif env f s = inr path ∧
   suffix path = ".sif" ∧ path_exists env f (parent path) = true) ∨
  ((∃ msg, sif env f s = inl (ArgumentTypeError msg)) ∧
   ¬ (suffix path = ".sif" ∧ path_exists env f (parent path) = true)).
Proof.
  intros path. unfold sif, wrap_exception. fold path.
  destruct (decide (suffix path = ".sif")) as [Hs|Hs].
  - rewrite bool_decide_eq_true_2 by done. simpl.
    destruct (path_exists env f (parent path)); simpl.
    + by left.
    + right. split; [by eexists|]. by intros [_ ?].
  - rewrite bool_decide_eq_false_2 by done. simpl.
    right. split; [by eexists|]. by intros [? _].
Qed.

(** Resolving a relative path that ends in a name other than [..] *)
Lemma resolve_snoc (cwd : Path) (ns : list string) (n : string) :
  n ≠ ".." →
  resolve cwd (mkPath "" (ns ++ [n]))
  = mkPath (root (resolve cwd (mkPath "" ns)))
           (names (resolve cwd (mkPath "" ns)) ++ [n]).
Proof.
  intros Hn. unfold resolve, joinpath. simpl.
  rewrite app_assoc, fold_left_app. simpl.
  unfold resolve_step at 1. by rewrite decide_False.
Qed.

Lemma name_snoc (r : string) (ns : list string) (n : string) :
  name (mkPath r (ns ++ [n])) = n.
Proof. unfold name. simpl. apply last_last. Qed.

Lemma parent_snoc (r : string) (ns : list string) (n : string) :
  parent (mkPath r (ns ++ [n])) = mkPath r ns.
Proof. unfold parent. simpl. by rewrite removelast_last. Qed.

Lemma cli_rejects_sif (env : Env) (f : FS env) (line : command_line) (s : string) :
  parser_ok env f →
  (∃ t, line = BuildSingularityImage t (Some s) ∧ ∀ x, t = Some x → tag x = inr x) ∨
  (∃ i, line = RunSingularityImage (Some s) i) →
  (∃ msg, sif env f s = inl (ArgumentTypeError msg)) →
  ∃ msg, cli env line (start env f) = (start env f, inl (UsageError msg)).
Proof.
  intros [p Hp] Hline [msg Hbad].
  unfold cli, bind, lift, tag_option. simpl. rewrite Hp.
  destruct Hline as [(t & -> & Ht)|(i & ->)]; simpl.
  - destruct t as [t|]; simpl; [rewrite (Ht t) by done|]; simpl;
      rewrite Hbad; simpl; by eexists.
  - rewrite Hbad. simpl. by eexists.
Qed.

(** C8: an image-file path is accepted if and only if the name of the
    resolved path is a non-empty stem followed by [.sif] (its suffix is
    [.sif]) and the parent of the resolved path exists; the accepted value
    is the resolved path.  A path that violates this is refused with an
    [ArgumentTypeError], and a command line that gives it ends in a usage
    error with no subprocess run.  [./out.sif] passes when the working
    directory exists, [./out.img] fails, and [./missing_dir/out.sif] fails
    when [missing_dir] does not exist. *)
Theorem sif_validation :
  (∀ (env : Env) (f : FS env) (s : string),
     let path := resolve (getcwd env) (parse s) in
     (∃ p, sif env f s = inr p)
     ↔ (∃ stem, stem ≠ "" ∧ name path = stem +:+ ".sif") ∧
       path_exists env f (parent path) = true) ∧
  (∀ (env : Env) (f : FS env) (s : string) (p : Path),
     sif env f s = inr p → p = resolve (getcwd env) (parse s)) ∧
  (∀ (env : Env) (f : FS env) (s : string),
     (∀ p, sif env f s ≠ inr p) →
     ∃ msg, sif env f s = inl (ArgumentTypeError msg)) ∧
  (∀ (env : Env) (f : FS env) (line : command_line) (s : string),
     parser_ok env f →
     (∃ t, line = BuildSingularityImage t (Some s) ∧
           ∀ x, t = Some x → tag x = inr x) ∨
     (∃ i, line = RunSingularityImage (Some s) i) →
     (∀ p, sif env f s ≠ inr p) →
     ∃ msg, cli env line (start env f) = (start env f, inl (UsageError msg))) ∧
  (∀ (env : Env) (f : FS env),
     path_exists env f (resolve (getcwd env) (parse ".")) = true →
     ∃ p, sif env f "./out.sif" = inr p) ∧
  (∀ (env : Env) (f : FS env),
     ∃ msg, sif env f "./out.img" = inl (ArgumentTypeError msg)) ∧
  (∀ (env : Env) (f : FS env),
     path_exists env f (resolve (getcwd env) (parse "./missing_dir")) = false →
     ∃ msg, sif env f "./missing_dir/out.sif" = inl (ArgumentTypeError msg)).
Proof.
  assert (Hrej : ∀ (env : Env) (f : FS env) (s : string),
            (∀ p, sif env f s ≠ inr p) →
            ∃ msg, sif env f s = inl (ArgumentTypeError msg)).
  { intros env f s Hno.
    destruct (sif_cases env f s) as [[Hok _]|[Hbad _]]; [by destruct (Hno _ Hok)|done]. }
  split; [|split; [|split; [exact Hrej|split; [|split; [|split]]]]].
  - intros env f s path. rewrite <- suffix_sif.
    destruct (sif_cases env f s) as [(Hok & Hs & He)|([msg Hbad] & Hno)];
      fold path in Hok || fold path in Hno.
    + split; [done|by eexists].
    + split; [intros [p Hp]; congruence|done].
  - intros env f s p Hp.
    destruct (sif_cases env f s) as [(Hok & _)|([msg Hbad] & _)]; congruence.
  - intros env f line s Hp Hline Hno. eapply cli_rejects_sif; eauto.
  - intros env f Hex.
    destruct (sif_cases env f "./out.sif") as [(Hok & _)|(_ & Hno)]; [by eexists|].
    destruct Hno. change (parse "./out.sif") with (mkPath "" ([] ++ ["out.sif"])).
    rewrite resolve_snoc by done. split.
    + apply suffix_sif. exists "out". by rewrite name_snoc.
    + by rewrite parent_snoc.
  - intros env f.
    destruct (sif_cases env f "./out.img") as [(_ & Hs & _)|(Hbad & _)]; [|done].
    revert Hs. change (parse "./out.img") with (mkPath "" ([] ++ ["out.img"])).
    rewrite resolve_snoc by done. unfold suffix. by rewrite name_snoc.
  - intros env f Hex.
    destruct (sif_cases env f "./missing_dir/out.sif")
      as [(_ & _ & He)|(Hbad & _)]; [|done].
    revert He.
    change (parse "./missing_dir/out.sif")
      with (mkPath "" (["missing_dir"] ++ ["out.sif"])).
    rewrite resolve_snoc, parent_snoc by done.
    change (mkPath "" ["missing_dir"]) with (parse "./missing_dir").
    intros He. exfalso. revert He Hex.
    destruct (resolve _ _) as [r ns]. simpl. congruence.
Qed.

(** ** run-singularity-image *)

Lemma call_run_singularity_image (env : Env) (p : Path) (i : bool) (st : state env) :
  call env MainRunSingularityImage
    (<["sif" := VPath p]> (<["interactive" := VBool i]> ∅)) st
  = (st, inl (TypeError "unexpected or missing keyword argument")).
Proof. reflexivity. Qed.

(** C1, on the code: no invocation of run-singularity-image starts a
    subprocess.  Whatever the [--sif] value and the interactive flag, the
    command ends in an exception with the state unchanged; when the
    options validate, it is the [TypeError] of calling
    [main_run_singularity_image], which has no parameter [sif], with the
    keyword [sif].  Called by itself, the function runs the Singularity
    executor against the fixed path [./decaf-fermi.sif], which nothing can
    override. *)
Theorem run_singularity_image_never_starts :
  (∀ (env : Env) (f : FS env) (s : option string) (i : bool),
     ∃ e, cli env (RunSingularityImage s i) (start env f) = (start env f, inl e)) ∧
  (∀ (env : Env) (f : FS env) (s : option string) (i : bool),
     parser_ok env f → (∀ x, s = Some x → ∃ p, sif env f x = inr p) →
     cli env (RunSingularityImage s i) (start env f)
     = (start env f, inl (TypeError "unexpected or missing keyword argument"))) ∧
  (∀ (env : Env) (i : bool) (st : state env),
     ∃ rc, trace env (main_run_singularity_image env i st).1
           = trace env st
             ++ [ (mkCmd (singularity_exec_argv "./decaf-fermi.sif" (_make_script i))
                     None None, rc) ]) ∧
  (let env := toy_env home all_ok in
   cli env (RunSingularityImage (Some "./other.sif") false) (start env [home])
   = (start env [home], inl (TypeError "unexpected or missing keyword argument"))).
Proof.
  assert (Hgen : ∀ (env : Env) (f : FS env) (s : option string) (i : bool),
            (∃ e, cli env (RunSingularityImage s i) (start env f)
                  = (start env f, inl e)) ∧
            (parser_ok env f → (∀ x, s = Some x → ∃ p, sif env f x = inr p) →
             cli env (RunSingularityImage s i) (start env f)
             = (start env f,
                inl (TypeError "unexpected or missing keyword argument")))).
  { intros env f s i. unfold cli, bind, lift, parser_ok. simpl.
    destruct (sif env f "./decaf-fermi.sif") as [e|p] eqn:Hd.
    { split; [by eexists|]. by intros [? ?]. }
    destruct s as [x|]; simpl.
    - destruct (sif env f x) as [e|p'] eqn:Hx; simpl.
      + split; [destruct e; by eexists|].
        intros _ Hok. destruct (Hok x eq_refl) as [? ?]. congruence.
      + rewrite call_run_singularity_image. split; [by eexists|done].
    - rewrite call_run_singularity_image. split; [by eexists|done]. }
  split; [intros; apply Hgen|]. split; [intros; by apply Hgen|].
  split; [|vm_compute; reflexivity].
  intros env i st. unfold main_run_singularity_image, run.
  destruct (spawn env _ _) as [f rc]. exists rc. by destruct (_ && _).
Qed.

(** A checkout that fails is ignored: the build runs and the command
    succeeds. *)
Example failed_checkout_is_ignored :
  let env := toy_env home (failing "git" "checkout" 1) in
  let r :=
    cli env (BuildDockerImage None None None None false None) (start env [home]) in
  r.2 = inr tt ∧
  map (λ x, (argv x.1, x.2)) (trace env r.1)
  = [ ([ "git"; "clone"; "git@bitbucket.org:tpeterka1/decaf.git"; "/home/u/decaf" ],
       0%Z);
      ([ "git"; "checkout"; "decaf-henson" ], 1%Z);
      (docker_build_argv "decaf-fermi:latest" "final", 0%Z) ].
Proof. split; vm_compute; reflexivity. Qed.

(** The two end-to-end scenarios of the build, when every step succeeds *)
Example build_scenarios :
  (let env := toy_env home all_ok in
   let r :=
     cli env (BuildDockerImage None None None (Some "foo/bar:0.2.0-base") true None)
       (start env [home; parse "/home/u/decaf"]) in
   r.2 = inr tt ∧
   map (λ x, (argv x.1, x.2)) (trace env r.1)
   = [ (docker_build_argv "foo/bar:0.2.0-base" "dependencies", 0%Z);
       ([ "docker"; "push"; "foo/bar:0.2.0-base" ], 0%Z) ]) ∧
  (let env := toy_env home all_ok in
   let r :=
     cli env (BuildDockerImage None None None (Some "bar:latest") false None)
       (start env [home; parse "/home/u/decaf"]) in
   r.2 = inr tt ∧
   map (λ x, (argv x.1, x.2)) (trace env r.1)
   = [ (docker_build_argv "bar:latest" "final", 0%Z) ]).
Proof. repeat split; vm_compute; reflexivity. Qed.

(** ** The command line of build-docker-image *)

Lemma call_build_docker_image (env : Env) (r : Path) (repo branch t : string)
    (only : bool) (pull : option string) (st : state env) :
  call env MainBuildDockerImage
    (<["decaf_root" := VPath r]>
       (<["decaf_repo" := VStr repo]>
          (<["decaf_repo_branch" := VStr branch]>
             (<["tag" := VStr t]>
                (<["only_dependencies" := VBool only]>
                   (<["pull_dependencies" := option_value pull]> ∅)))))) st
  = main_build_docker_image env r repo branch t only pull st.
Proof. destruct pull; reflexivity. Qed.

Lemma cli_build_docker_image (env : Env) (f : FS env)
    (root repo branch t : option string) (only : bool) (pull : option string) :
  parser_ok env f → (∀ x, t = Some x → tag x = inr x) → pull_ok pull →
  cli env (BuildDockerImage root repo branch t only pull) (start env f)
  = main_build_docker_image env
      (from_option parse (joinpath (getcwd env) (parse "decaf")) root)
      (default "git@bitbucket.org:tpeterka1/decaf.git" repo)
      (default "decaf-henson" branch)
      (default "decaf-fermi:latest" t) only pull (start env f).
Proof.
  intros [p Hp] Ht Hpull.
  unfold cli, bind, lift, tag_option. simpl. rewrite Hp.
  assert (Htag : tag (default "decaf-fermi:latest" t)
                 = inr (default "decaf-fermi:latest" t))
    by (destruct t; [by apply Ht|reflexivity]).
  rewrite Htag. simpl.
  destruct pull as [pl|]; simpl in *.
  - rewrite Hpull. simpl. apply (call_build_docker_image _ _ _ _ _ _ (Some pl)).
  - apply (call_build_docker_image _ _ _ _ _ _ None).
Qed.


Lemma cli_build_cases (env : Env) (f : FS env)
    (root repo branch t : option string) (only : bool) (pull : option string) :
  trace env (cli env (BuildDockerImage root repo branch t only pull) (start env f)).1
  = [] ∨
  (parser_ok env f ∧ (∀ x, t = Some x → tag x = inr x) ∧ pull_ok pull).
Proof.
  unfold cli, bind, lift, tag_option, parser_ok. simpl.
  destruct (sif env f "./decaf-fermi.sif") as [e|p]; [by left|].
  destruct t as [x|]; simpl.
  - destruct (tag_cases x) as [Hx|[m Hx]]; rewrite Hx; simpl; [|by left].
    destruct pull as [pl|]; simpl.
    + destruct (tag_cases pl) as [Hpl|[m Hpl]]; rewrite Hpl; simpl; [|by left].
      right. split; [by eexists|]. split; [by intros ? [= <-]|done].
    + right. split; [by eexists|]. split; [by intros ? [= <-]|done].
  - destruct pull as [pl|]; simpl.
    + destruct (tag_cases pl) as [Hpl|[m Hpl]]; rewrite Hpl; simpl; [|by left].
      right. split; [by eexists|]. split; [done|done].
    + right. split; [by eexists|]. split; [done|done].
Qed.

Lemma cli_source_tree_wf (env : Env) (root : option string) :
  wf_names (names (getcwd env)) →
  wf_names (names (from_option parse (joinpath (getcwd env) (parse "decaf")) root)).
Proof.
  intros Hcwd. destruct root; cbn [from_option]; [apply parse_wf|].
  apply joinpath_wf; [done|apply parse_wf].
Qed.

(** On the command line: with [--pull-dependencies] given, the Dockerfile
    that the build tool receives has the pulled stage and not the
    dependency block. *)
Corollary cli_pull_dependencies (env : Env) (f : FS env)
    (root repo branch t : option string) (only : bool) (pl : string)
    (c : Cmd) (rc : Z) :
  wf_names (names (getcwd env)) →
  (c, rc) ∈ trace env
    (cli env (BuildDockerImage root repo branch t only (Some pl)) (start env f)).1 →
  is_docker_build c = true →
  ∃ text, cmd_input c = Some text ∧
    ¬ infix dependency_block text ∧ infix (pulled_stage pl) text.
Proof.
  intros Hcwd Hin Hb.
  destruct (cli_build_cases env f root repo branch t only (Some pl))
    as [Hnil|(Hp & Ht & Hpl)].
  { rewrite Hnil in Hin. by apply elem_of_nil in Hin. }
  rewrite cli_build_docker_image in Hin by done.
  destruct (build_in_trace _ _ _ _ _ _ _ _ _ _ Hin Hb) as (r & Hr & ->).
  destruct (relative_to_wf _ _ _ (cli_source_tree_wf env root Hcwd) Hr)
    as [Hroot Hwf].
  destruct (pulled_rendering r only pl Hpl Hroot Hwf) as [Hno [post Hstage]].
  eexists. split; [reflexivity|]. split; [done|].
  rewrite Hstage. by exists (nl +:+ nl +:+ nl), (final_header +:+ post).
Qed.

(** On the command line: with [--only-dependencies], the Dockerfile that
    the build tool receives has no COPY into [/opt/decaf] and not the
    compile instruction, and the build targets the stage dependencies. *)
Corollary cli_only_dependencies (env : Env) (f : FS env)
    (root repo branch t pull : option string) (c : Cmd) (rc : Z) :
  (c, rc) ∈ trace env
    (cli env (BuildDockerImage root repo branch t true pull) (start env f)).1 →
  is_docker_build c = true →
  argv c = docker_build_argv (default "decaf-fermi:latest" t) "dependencies" ∧
  ∃ text, cmd_input c = Some text ∧
    (∀ src, ¬ infix (copy_instruction src) text) ∧
    ¬ infix compile_instruction text.
Proof.
  intros Hin Hb.
  destruct (cli_build_cases env f root repo branch t true pull)
    as [Hnil|(Hp & Ht & Hpl)].
  { rewrite Hnil in Hin. by apply elem_of_nil in Hin. }
  rewrite cli_build_docker_image in Hin by done.
  destruct (build_in_trace _ _ _ _ _ _ _ _ _ _ Hin Hb) as (r & Hr & ->).
  destruct (only_rendering r pull Hpl) as (Hcopy & Hcompile).
  split; [reflexivity|]. eexists. split; [reflexivity|]. split; [|done].
  intros src Hi. apply Hcopy.
  eapply infix_trans; [apply copy_instruction_target|exact Hi].
Qed.

(** Validation on the command line, in a directory that exists *)
Example validation_scenarios :
  let env := toy_env home all_ok in
  (cli env (RunDockerImage (Some "a/b/c:latest") false) (start env [home])).2
  = inl (UsageError
           ("argument --tag: Expected 0 or 1 " +:+ q "/" +:+
            " separator in tag (user/imagename or imagename)")) ∧
  (cli env (RunDockerImage (Some "image") true) (start env [home])).2
  = inl (UsageError
           ("argument --tag: Expected " +:+ q ":" +:+
            " separator in tag (version, e.g. " +:+ q "latest" +:+ ")")) ∧
  (cli env (BuildSingularityImage None (Some "./out.img")) (start env [home])).2
  = inl (UsageError "argument --sif: Expected sif extension") ∧
  (cli env (BuildSingularityImage None (Some "./missing_dir/out.sif"))
     (start env [home])).2
  = inl (UsageError
           "argument --sif: Expected parent directory to exist: /home/u/missing_dir") ∧
  cli env (BuildSingularityImage (Some "user/image:latest") (Some "./out.sif"))
    (start env [home])
  = (mkState env [home]
       [ (mkCmd [ "singularity"; "build"; "/home/u/out.sif";
                  "docker://user/image:latest" ] None None, 0%Z) ],
     inr tt).
Proof. repeat split; vm_compute; reflexivity. Qed.

(** * Further properties of the commands *)

(** ** build-docker-image: order and outcome *)

(** X1: build-docker-image runs at most four subprocesses, each at most
    once and in the fixed order clone, checkout, build, push.  The clone is
    run exactly when the source tree is absent, and the checkout exactly
    when, besides, the clone exits with 0. *)
Theorem build_runs_in_order (env : Env) (f : FS env) (root : Path)
    (repo branch t : string) (only : bool) (pull : option string) :
  let r := main_build_docker_image env root repo branch t only pull (start env f) in
  let tr := trace env r.1 in
  (∃ d, tr.*1 `sublist_of`
          [ clone_cmd repo root; checkout_cmd branch root;
            build_cmd t only d; push_cmd t ]) ∧
  ((∃ rc, (clone_cmd repo root, rc) ∈ tr) ↔ path_exists env f root = false) ∧
  ((∃ rc, (checkout_cmd branch root, rc) ∈ tr)
   ↔ path_exists env f root = false ∧
     (spawn env f (clone_cmd repo root)).2 = 0%Z).
Proof.
  build_cases env f root repo branch t only pull.
  all: split;
    [first [ exists ""; simpl;
             solve [repeat first [apply sublist_skip|apply sublist_cons|apply sublist_nil]]
           | eexists; simpl;
             solve [repeat first [apply sublist_skip|apply sublist_cons|apply sublist_nil]] ]|].
  all: split.
  all: split;
    [ intros [rc' Hin]; trace_elems; simplify_eq; try done; try (split; congruence)
    | first [ intros [? ?]; congruence | intros ?; congruence
            | intros _; eexists; simpl; rewrite ?elem_of_cons; eauto ] ].
Qed.

(** X2: build-docker-image succeeds exactly when the build has exited with
    0 and, for a tag with a [/], the push has exited with 0. *)
Theorem build_success (env : Env) (f : FS env) (root : Path)
    (repo branch t : string) (only : bool) (pull : option string) :
  let r := main_build_docker_image env root repo branch t only pull (start env f) in
  let tr := trace env r.1 in
  r.2 = inr tt
  ↔ (∃ c, is_docker_build c = true ∧ (c, 0%Z) ∈ tr) ∧
    (contains_char "/" t = true → (push_cmd t, 0%Z) ∈ tr).
Proof.
  build_cases env f root repo branch t only pull.
  all: split;
    [ intros Hok; try discriminate;
      (split; [eexists; split; [|apply elem_of_app; right; apply elem_of_cons; left; reflexivity]; reflexivity|]);
      first [ intros ?; congruence
            | intros _; apply elem_of_app; right; rewrite !elem_of_cons; auto ]
    | intros [(c & Hb & Hin) Hpush]; try reflexivity;
      try specialize (Hpush Hslash);
      trace_elems; simplify_eq; done ].
Qed.

(** ** build-docker-image: the source tree on the command line *)

Lemma sif_error (env : Env) (f : FS env) (s : string) (e : exn) :
  sif env f s = inl e → ∃ msg, e = ArgumentTypeError msg.
Proof.
  destruct (sif_cases env f s) as [(Hok & _)|([msg Hbad] & _)]; intros He.
  - cbv zeta in Hok. congruence.
  - exists msg. congruence.
Qed.

(** The command line of build-docker-image either stops at the validation
    of its options, in its initial state, or runs the command. *)
Lemma cli_build_outcome (env : Env) (f : FS env)
    (root repo branch t : option string) (only : bool) (pull : option string) :
  (∃ e, cli env (BuildDockerImage root repo branch t only pull) (start env f)
        = (start env f, inl e) ∧
        ∃ msg, e = ArgumentTypeError msg ∨ e = UsageError msg) ∨
  (parser_ok env f ∧ (∀ x, t = Some x → tag x = inr x) ∧ pull_ok pull).
Proof.
  unfold cli, bind, lift, tag_option, parser_ok. simpl.
  destruct (sif env f "./decaf-fermi.sif") as [e|p] eqn:Hd.
  { left. destruct (sif_error _ _ _ _ Hd) as [m ->]. eauto. }
  destruct t as [x|]; simpl.
  - destruct (tag_cases x) as [Hx|[m Hx]]; rewrite Hx; simpl; [|left; eauto].
    destruct pull as [pl|]; simpl.
    + destruct (tag_cases pl) as [Hpl|[m Hpl]]; rewrite Hpl; simpl; [|left; eauto].
      right. split; [by eexists|]. split; [by intros ? [= <-]|done].
    + right. split; [by eexists|]. split; [by intros ? [= <-]|done].
  - destruct pull as [pl|]; simpl.
    + destruct (tag_cases pl) as [Hpl|[m Hpl]]; rewrite Hpl; simpl; [|left; eauto].
      right. split; [by eexists|]. split; [done|done].
    + right. split; [by eexists|]. split; [done|done].
Qed.

(** A run whose source tree is not written under the working directory *)
Lemma outside_cwd_run (env : Env) (f : FS env) (root : Path)
    (repo branch t : string) (only : bool) (pull : option string) :
  relative_to root (getcwd env) = None →
  let r := main_build_docker_image env root repo branch t only pull (start env f) in
  (∃ e, r.2 = inl e) ∧
  (∀ c rc, (c, rc) ∈ trace env r.1 → is_docker_build c = false) ∧
  (path_exists env f root = true →
   r = (start env f, inl (ValueError "not in the subpath"))).
Proof.
  intros Hnone. cbv zeta.
  split; [|split].
  - build_cases env f root repo branch t only pull; try congruence; by eexists.
  - build_cases env f root repo branch t only pull; try congruence.
    all: intros c rc' Hin; trace_elems; by simplify_eq.
  - intros Hex.
    unfold main_build_docker_image, bind, exists_, run, ret, raise, start. simpl.
    rewrite Hex, Hnone. reflexivity.
Qed.

Lemma relative_to_other_root (p o : Path) :
  root o ≠ "" → root p ≠ root o → relative_to p o = None.
Proof.
  intros Ho Hp. unfold relative_to.
  rewrite decide_False by done. rewrite decide_False; [done|]. by intros [? _].
Qed.

Lemma relative_to_default (env : Env) :
  relative_to (default_decaf_root env) (getcwd env) = Some (parse "decaf").
Proof.
  unfold default_decaf_root, relative_to, joinpath. simpl.
  destruct (decide (root (getcwd env) = "")) as [Hr|Hr].
  - destruct (names (getcwd env)) as [|n ns] eqn:Hn; simpl.
    + by rewrite Hr.
    + rewrite decide_True; [|by rewrite take_app_length].
      by rewrite drop_app_length.
  - rewrite decide_True; [|by rewrite take_app_length].
    by rewrite drop_app_length.
Qed.

(** X3: a relative [--decaf-root] never builds.  In a working directory
    that is an absolute path, [relative_to] refuses every relative source
    tree, although it may well lie in the working directory: the command
    fails, no build is run, and when the options validate and the tree is
    present the failure is the path error with no subprocess at all. *)
Theorem relative_decaf_root_is_rejected (env : Env) (f : FS env) (s : string)
    (repo branch t : option string) (only : bool) (pull : option string) :
  root (getcwd env) ≠ "" → root (parse s) = "" →
  let r :=
    cli env (BuildDockerImage (Some s) repo branch t only pull) (start env f) in
  (∃ e, r.2 = inl e) ∧
  (∀ c rc, (c, rc) ∈ trace env r.1 → is_docker_build c = false) ∧
  (parser_ok env f → (∀ x, t = Some x → tag x = inr x) → pull_ok pull →
   path_exists env f (parse s) = true →
   r = (start env f, inl (ValueError "not in the subpath"))).
Proof.
  intros Hcwd Hrel. cbv zeta.
  assert (Hnone : relative_to (parse s) (getcwd env) = None)
    by (apply relative_to_other_root; [done|congruence]).
  pose proof (outside_cwd_run env f (parse s)
                (default "git@bitbucket.org:tpeterka1/decaf.git" repo)
                (default "decaf-henson" branch)
                (default "decaf-fermi:latest" t) only pull Hnone)
    as (H1 & H2 & H3).
  assert (Hlast : parser_ok env f → (∀ x, t = Some x → tag x = inr x) →
                  pull_ok pull → path_exists env f (parse s) = true →
                  cli env (BuildDockerImage (Some s) repo branch t only pull)
                    (start env f)
                  = (start env f, inl (ValueError "not in the subpath"))).
  { intros Hp Ht Hpl Hex. rewrite cli_build_docker_image by done. by apply H3. }
  destruct (cli_build_outcome env f (Some s) repo branch t only pull)
    as [(e & He & _)|(Hp & Ht & Hpl)].
  - rewrite He in *. split; [by eexists|]. split; [|done].
    intros c rc Hin. by apply elem_of_nil in Hin.
  - split; [|split; [|done]]; by rewrite cli_build_docker_image by done.
Qed.

Lemma relative_decaf_root_is_rejected_witness :
  let env := toy_env home all_ok in
  cli env (BuildDockerImage (Some "decaf") None None None false None)
    (start env [home; parse "decaf"])
  = (start env [home; parse "decaf"], inl (ValueError "not in the subpath")).
Proof.
  destruct (relative_decaf_root_is_rejected (toy_env home all_ok)
              [home; parse "decaf"] "decaf" None None None false None)
    as (_ & _ & H).
  - done.
  - reflexivity.
  - apply H.
    + by eexists.
    + done.
    + done.
    + reflexivity.
Defined.

(** X4: with [--decaf-root] omitted the source tree is [decaf] in the
    working directory, which [relative_to] always accepts: the command
    never fails with the path error, and every Dockerfile given to the
    build is rendered for the source tree [decaf].  With [--tag] omitted
    as well, nothing is pushed. *)
Theorem default_decaf_root_is_accepted (env : Env) (f : FS env)
    (repo branch t : option string) (only : bool) (pull : option string) :
  let r := cli env (BuildDockerImage None repo branch t only pull) (start env f) in
  relative_to (default_decaf_root env) (getcwd env) = Some (parse "decaf") ∧
  (∀ msg, r.2 ≠ inl (ValueError msg)) ∧
  (∀ c rc, (c, rc) ∈ trace env r.1 → is_docker_build c = true →
     cmd_input c = Some (render_dockerfile (parse "decaf") only pull)) ∧
  (t = None → ∀ c rc x, (c, rc) ∈ trace env r.1 → c ≠ push_cmd x).
Proof.
  cbv zeta. split; [apply relative_to_default|].
  destruct (cli_build_outcome env f None repo branch t only pull)
    as [(e & He & m & Hm)|(Hp & Ht & Hpl)].
  { rewrite He. simpl. split; [intros ? [= ->]; by destruct Hm|].
    split; [intros c rc Hin|intros _ c rc x Hin]; by apply elem_of_nil in Hin. }
  rewrite cli_build_docker_image by done. cbn [from_option].
  fold (default_decaf_root env).
  pose proof (relative_to_default env) as Hdef.
  split; [|split].
  - build_cases env f (default_decaf_root env)
      (default "git@bitbucket.org:tpeterka1/decaf.git" repo)
      (default "decaf-henson" branch) (default "decaf-fermi:latest" t) only pull;
      try congruence; by intros ?.
  - intros c rc Hin Hb.
    destruct (build_in_trace _ _ _ _ _ _ _ _ _ _ Hin Hb) as (r & Hr & ->).
    by simplify_eq.
  - intros -> cmd status x. cbn [default].
    build_cases env f (default_decaf_root env)
      (default "git@bitbucket.org:tpeterka1/decaf.git" repo)
      (default "decaf-henson" branch) "decaf-fermi:latest" only pull.
    all: try (vm_compute in Hslash; discriminate Hslash).
    all: try congruence.
    all: intros Hin; trace_elems; simplify_eq;
      unfold clone_cmd, checkout_cmd, build_cmd, push_cmd, docker_build_argv;
      by intros [=].
Qed.

(** ** The single-step commands on the command line *)

Lemma run_checked (env : Env) (args : list string) (cwd : option Path)
    (input : option string) (f : FS env) :
  let c := mkCmd args cwd input in
  run env args cwd input true (start env f)
  = (mkState env (spawn env f c).1 [ (c, (spawn env f c).2) ],
     if ((spawn env f c).2 =? 0)%Z then inr tt
     else inl (CalledProcessError (spawn env f c).2 args)).
Proof.
  cbv zeta. unfold run, start. simpl.
  destruct (spawn env f _) as [f' rc]. simpl. by destruct (rc =? 0)%Z.
Qed.

Lemma call_build_singularity_image (env : Env) (t : string) (p : Path)
    (st : state env) :
  call env MainBuildSingularityImage
    (<["tag" := VStr t]> (<["sif" := VPath p]> ∅)) st
  = main_build_singularity_image env t p st.
Proof. reflexivity. Qed.

(** The command line of run-docker-image stops at validation or runs the
    command. *)
Lemma cli_run_docker_outcome (env : Env) (f : FS env) (t : option string)
    (i : bool) :
  (∃ e, cli env (RunDockerImage t i) (start env f) = (start env f, inl e) ∧
        ∃ msg, e = ArgumentTypeError msg ∨ e = UsageError msg) ∨
  (parser_ok env f ∧ (∀ x, t = Some x → tag x = inr x) ∧
   cli env (RunDockerImage t i) (start env f)
   = main_run_docker_image env (default "decaf-fermi:latest" t) i (start env f)).
Proof.
  unfold cli, bind, lift, tag_option, parser_ok. simpl.
  destruct (sif env f "./decaf-fermi.sif") as [e|p] eqn:Hd.
  { left. destruct (sif_error _ _ _ _ Hd) as [m ->]. eauto. }
  destruct t as [x|]; simpl.
  - destruct (tag_cases x) as [Hx|[m Hx]]; rewrite Hx; simpl; [|left; eauto].
    right. split; [by eexists|]. split; [by intros ? [= <-]|].
    apply call_run_docker_image.
  - right. split; [by eexists|]. split; [done|]. apply call_run_docker_image.
Qed.

(** The command line of build-singularity-image stops at validation or runs
    the command on the resolved image file. *)
Lemma cli_build_singularity_outcome (env : Env) (f : FS env)
    (t s : option string) :
  let p := resolve (getcwd env) (parse (default "./decaf-fermi.sif" s)) in
  (∃ e, cli env (BuildSingularityImage t s) (start env f) = (start env f, inl e) ∧
        ∃ msg, e = ArgumentTypeError msg ∨ e = UsageError msg) ∨
  (parser_ok env f ∧ (∀ x, t = Some x → tag x = inr x) ∧
   suffix p = ".sif" ∧ path_exists env f (parent p) = true ∧
   cli env (BuildSingularityImage t s) (start env f)
   = main_build_singularity_image env (default "decaf-fermi:latest" t) p
       (start env f)).
Proof.
  cbv zeta. unfold cli, bind, lift, tag_option, parser_ok. simpl.
  destruct (sif_cases env f "./decaf-fermi.sif")
    as [(Hd & Hds & Hde)|([m Hd] & _)]; rewrite Hd; simpl; [|left; eauto].
  destruct t as [x|]; simpl;
    [destruct (tag_cases x) as [Hx|[m Hx]]; rewrite Hx; simpl; [|left; eauto]|].
  all: destruct s as [s0|]; simpl;
    [destruct (sif_cases env f s0) as [(Hs & Hss & Hse)|([m Hs] & _)];
       rewrite Hs; simpl; [|left; eauto]|].
  all: right; (split; [by eexists|]);
    (split; [first [by intros ? [= <-]|done]|]);
    (split; [done|]); (split; [done|]); apply call_build_singularity_image.
Qed.




(** X5: run-docker-image on the command line, with options that validate,
    runs one subprocess, the [docker run] of the tag (by default
    [decaf-fermi:latest]) with the generated script; the outcome is
    success when it exits with 0 and otherwise the [CalledProcessError]
    with its exit status. *)
Theorem run_docker_image_outcome (env : Env) (f : FS env) (t : option string)
    (i : bool) :
  parser_ok env f → (∀ x, t = Some x → tag x = inr x) →
  let c :=
    mkCmd (docker_run_argv (default "decaf-fermi:latest" t) (_make_script i))
      None None in
  let rc := (spawn env f c).2 in
  let r := cli env (RunDockerImage t i) (start env f) in
  trace env r.1 = [ (c, rc) ] ∧
  fs env r.1 = (spawn env f c).1 ∧
  (rc = 0%Z → r.2 = inr tt) ∧
  (rc ≠ 0%Z → r.2 = inl (CalledProcessError rc (argv c))).
Proof.
  intros [p Hp] Ht. cbv zeta.
  assert (Hrun : cli env (RunDockerImage t i) (start env f)
                 = main_run_docker_image env (default "decaf-fermi:latest" t) i
                     (start env f)).
  { unfold cli, bind, lift, tag_option. simpl. rewrite Hp.
    assert (Htag : tag (default "decaf-fermi:latest" t)
                   = inr (default "decaf-fermi:latest" t))
      by (destruct t; [by apply Ht|reflexivity]).
    rewrite Htag. simpl. apply call_run_docker_image. }
  rewrite Hrun. unfold main_run_docker_image, docker_run_argv.
  rewrite run_checked. cbv zeta.
  set (rc := (spawn env f _).2). cbn [fst snd trace fs].
  split; [done|]. split; [done|]. split.
  - intros ->. done.
  - intros Hne. by destruct (Z.eqb_spec rc 0).
Qed.

Lemma run_docker_image_outcome_witness :
  let env := toy_env home (failing "docker" "run" 125) in
  (cli env (RunDockerImage None true) (start env [home])).2
  = inl (CalledProcessError 125
           (docker_run_argv "decaf-fermi:latest" (_make_script true))).
Proof.
  destruct (run_docker_image_outcome (toy_env home (failing "docker" "run" 125))
              [home] None true) as (_ & _ & _ & H).
  - by eexists.
  - done.
  - apply H. done.
Defined.


(** ** build-docker-image and build-singularity-image together *)

(** X7: the two build commands agree on where the image lives.  After a
    build-docker-image that succeeds, the tag has been pushed exactly when
    build-singularity-image, given the same tag, takes the image from the
    registry ([docker://]); a tag that was not pushed is taken from the
    local Docker daemon ([docker-daemon://]). *)
Theorem build_and_convert_agree (env : Env) (f : FS env) (root : Path)
    (repo branch t : string) (only : bool) (pull : option string)
    (env' : Env) (p : Path) (st' : state env') :
  let r := main_build_docker_image env root repo branch t only pull (start env f) in
  let r' := main_build_singularity_image env' t p st' in
  r.2 = inr tt →
  ((push_cmd t, 0%Z) ∈ trace env r.1 ∧
   ∃ rc, trace env' r'.1
         = trace env' st'
           ++ [ (mkCmd [ "singularity"; "build"; str p; "docker://" +:+ t ]
                   None None, rc) ]) ∨
  ((∀ c rc, (c, rc) ∈ trace env r.1 → c ≠ push_cmd t) ∧
   ∃ rc, trace env' r'.1
         = trace env' st'
           ++ [ (mkCmd [ "singularity"; "build"; str p; "docker-daemon://" +:+ t ]
                   None None, rc) ]).
Proof.
  cbv zeta.
  assert (Hconv : ∃ rc,
    trace env' (main_build_singularity_image env' t p st').1
    = trace env' st'
      ++ [ (mkCmd [ "singularity"; "build"; str p; image_reference t ]
              None None, rc) ]).
  { unfold main_build_singularity_image, run, image_reference.
    destruct (spawn env' _ _) as [f' rc]. exists rc. by destruct (_ && _). }
  revert Hconv. unfold image_reference.
  build_cases env f root repo branch t only pull; intros Hconv Hok;
    try discriminate.
  - right. rewrite Hslash in Hconv. split; [|done].
    intros c rc Hin. trace_elems; simplify_eq. by intros [=].
  - right. rewrite Hslash in Hconv. split; [|done].
    intros c rc Hin. trace_elems; simplify_eq; by intros [=].
  - left. rewrite Hslash in Hconv. split; [|done].
    rewrite elem_of_app, !elem_of_cons. auto.
  - left. rewrite Hslash in Hconv. split; [|done].
    rewrite elem_of_app, !elem_of_cons. auto.
Qed.

Lemma build_and_convert_agree_witness :
  let env := toy_env home all_ok in
  let r' :=
    main_build_singularity_image env "foo/bar:0.2.0-base" (parse "/home/u/x.sif")
      (start env [home]) in
  (∃ rc, trace env r'.1
         = [ (mkCmd [ "singularity"; "build"; "/home/u/x.sif";
                      "docker://foo/bar:0.2.0-base" ] None None, rc) ]) ∧
  contains_char "/" "foo/bar:0.2.0-base" = true.
Proof.
  split; [|reflexivity].
  destruct (build_and_convert_agree (toy_env home all_ok)
              [home; parse "/home/u/decaf"] (parse "/home/u/decaf") "repo" "branch"
              "foo/bar:0.2.0-base" true None (toy_env home all_ok)
              (parse "/home/u/x.sif") (start (toy_env home all_ok) [home]))
    as [[_ H]|[_ H]].
  - reflexivity.
  - exact H.
  - exists 0%Z. reflexivity.
Defined.

(** ** Validation comes first *)

(** The other command lines: no subcommand, and run-singularity-image *)
Lemma cli_no_command (env : Env) (f : FS env) :
  cli env NoCommand (start env f) = (start env f, inr tt) ∨
  ∃ msg, cli env NoCommand (start env f)
         = (start env f, inl (ArgumentTypeError msg)).
Proof.
  unfold cli, bind, lift. simpl.
  destruct (sif env f "./decaf-fermi.sif") as [e|p] eqn:Hd; [|by left].
  right. destruct (sif_error _ _ _ _ Hd) as [m ->]. by eexists.
Qed.

Lemma cli_run_singularity_outcome (env : Env) (f : FS env) (s : option string)
    (i : bool) :
  ∃ e, cli env (RunSingularityImage s i) (start env f) = (start env f, inl e) ∧
       ∃ msg, e = ArgumentTypeError msg ∨ e = UsageError msg ∨ e = TypeError msg.
Proof.
  unfold cli, bind, lift. simpl.
  destruct (sif env f "./decaf-fermi.sif") as [e|p] eqn:Hd.
  { destruct (sif_error _ _ _ _ Hd) as [m ->]. eauto 6. }
  destruct s as [x|]; simpl.
  - destruct (sif_cases env f x) as [(Hx & _)|([m Hx] & _)]; rewrite Hx; simpl.
    + rewrite call_run_singularity_image. eauto 6.
    + eauto 6.
  - rewrite call_run_singularity_image. eauto 6.
Qed.

Lemma build_error_kind (env : Env) (f : FS env) (root : Path)
    (repo branch t : string) (only : bool) (pull : option string) (e : exn) :
  (main_build_docker_image env root repo branch t only pull (start env f)).2
  = inl e →
  (∃ rc a, e = CalledProcessError rc a) ∨ ∃ msg, e = ValueError msg.
Proof.
  revert e.
  build_cases env f root repo branch t only pull; intros e [= <-]; eauto.
Qed.

(** X8: validation comes before every side effect.  When a command line
    ends in an error of validation or dispatch (a usage error, an
    [ArgumentTypeError] of the parser's own defaults, a [TypeError]), no
    subprocess has run and the file system is as it was; such a command
    line never lets an [AssertionError] of a validator escape.  An error
    after a subprocess is a [CalledProcessError] or the path error. *)
Theorem validation_precedes_subprocesses (env : Env) (f : FS env)
    (line : command_line) :
  let r := cli env line (start env f) in
  (∀ e, r.2 = inl e → is_validation_error e = true → r.1 = start env f) ∧
  (∀ msg, r.2 ≠ inl (AssertionError msg)) ∧
  (∀ e, r.2 = inl e → trace env r.1 ≠ [] →
     (∃ rc a, e = CalledProcessError rc a) ∨ ∃ msg, e = ValueError msg).
Proof.
  cbv zeta.
  assert (Hstop : ∀ e, (∃ msg, e = ArgumentTypeError msg ∨ e = UsageError msg) →
            cli env line (start env f) = (start env f, inl e) →
            (∀ e', (cli env line (start env f)).2 = inl e' →
                   is_validation_error e' = true →
                   (cli env line (start env f)).1 = start env f) ∧
            (∀ msg, (cli env line (start env f)).2 ≠ inl (AssertionError msg)) ∧
            (∀ e', (cli env line (start env f)).2 = inl e' →
                   trace env (cli env line (start env f)).1 ≠ [] →
                   (∃ rc a, e' = CalledProcessError rc a) ∨
                   ∃ msg, e' = ValueError msg)).
  { intros e [m Hm] He. rewrite He. simpl. split; [done|]. split; [|done].
    intros msg [= ->]. by destruct Hm. }
  destruct line as [|root repo branch t only pull|t i|t s|s i].
  - destruct (cli_no_command env f) as [He|[m He]].
    + rewrite He. simpl. done.
    + eapply Hstop; [|exact He]. eauto.
  - destruct (cli_build_outcome env f root repo branch t only pull)
      as [(e & He & Hm)|(Hp & Ht & Hpl)]; [by eapply Hstop|].
    rewrite cli_build_docker_image by done.
    pose proof (build_error_kind env f
      (from_option parse (joinpath (getcwd env) (parse "decaf")) root)
      (default "git@bitbucket.org:tpeterka1/decaf.git" repo)
      (default "decaf-henson" branch) (default "decaf-fermi:latest" t) only pull)
      as Hkind.
    split; [|split].
    + intros e He Hv. destruct (Hkind e He) as [(rc & a & ->)|[m ->]]; done.
    + intros msg He. destruct (Hkind _ He) as [(rc & a & ?)|[m ?]]; done.
    + intros e He _. by apply Hkind.
  - destruct (cli_run_docker_outcome env f t i)
      as [(e & He & Hm)|(_ & _ & Hrun)]; [by eapply Hstop|].
    rewrite Hrun. unfold main_run_docker_image. rewrite run_checked. cbv zeta.
    set (rc := (spawn env f _).2). cbn [fst snd].
    destruct (rc =? 0)%Z.
    + done.
    + split; [by intros e [= <-] ?|]. split; [done|]. intros e [= <-] _. eauto.
  - destruct (cli_build_singularity_outcome env f t s)
      as [(e & He & Hm)|(_ & _ & _ & _ & Hrun)]; [by eapply Hstop|].
    cbv zeta in Hrun. rewrite Hrun.
    unfold main_build_singularity_image. rewrite run_checked. cbv zeta.
    set (rc := (spawn env f _).2). cbn [fst snd].
    destruct (rc =? 0)%Z.
    + done.
    + split; [by intros e [= <-] ?|]. split; [done|]. intros e [= <-] _. eauto.
  - destruct (cli_run_singularity_outcome env f s i) as (e & He & m & Hm).
    rewrite He. simpl. split; [done|]. split; [|done].
    intros msg [= ->]. by destruct Hm as [?|[?|?]].
Qed.



(** ** The stages of a rendering *)

Lemma infix_app_l (m a b : string) : infix m a → infix m (a +:+ b).
Proof.
  intros (u & v & ->). exists u, (v +:+ b). by rewrite !append_assoc.
Qed.

Lemma infix_app_r (m a b : string) : infix m b → infix m (a +:+ b).
Proof.
  intros (u & v & ->). exists (a +:+ u), v. by rewrite !append_assoc.
Qed.

(** X10: every rendering defines the stages that the build refers to.
    Whatever the parameters, the Dockerfile has a stage named dependencies
    and, after it, the stage final that is built from it, so both targets
    of the build exist; it ends with the entry point.  With
    only_dependencies set, the text does not depend on the source tree. *)
Theorem rendering_defines_stages (r : Path) (only : bool) (pull : option string) :
  let out := render_dockerfile r only pull in
  (∃ pre post, out = pre +:+ (" AS dependencies" +:+ nl) +:+ post ∧
     infix ("FROM dependencies AS final" +:+ nl) post) ∧
  infix (" AS " +:+ target_of only +:+ nl) out ∧
  ends_with entrypoint out ∧
  (∀ r', render_dockerfile r' true pull = render_dockerfile r true pull).
Proof.
  cbv zeta.
  assert (Hfinal : infix ("FROM dependencies AS final" +:+ nl) final_header)
    by (apply infixb_infix; vm_compute; reflexivity).
  assert (Hstages : ∃ pre post,
            render_dockerfile r only pull
            = pre +:+ (" AS dependencies" +:+ nl) +:+ post ∧
            infix ("FROM dependencies AS final" +:+ nl) post).
  { rewrite render_dockerfile_eq. destruct (pull_given pull).
    - exists ("" +:+ nl +:+ nl +:+ nl +:+ "FROM " +:+ default "" pull),
             (final_header +:+
              (if only then ""
               else nl +:+ shell_setup_text +:+ "COPY " +:+ str r +:+
                    " /opt/decaf" +:+ nl +:+ patch_text +:+
                    compile_instruction +:+ nl) +:+ entrypoint).
      split; [|apply infix_app_l; exact Hfinal].
      rewrite !append_assoc. reflexivity.
    - assert (Hdep : infix (" AS dependencies" +:+ nl) dependency_block)
        by (apply infixb_infix; vm_compute; reflexivity).
      destruct Hdep as (u & v & Huv). rewrite Huv.
      exists u, (v +:+ nl +:+ nl +:+ "" +:+ final_header +:+
                 (if only then ""
                  else nl +:+ shell_setup_text +:+ "COPY " +:+ str r +:+
                       " /opt/decaf" +:+ nl +:+ patch_text +:+
                       compile_instruction +:+ nl) +:+ entrypoint).
      split; [rewrite !append_assoc; reflexivity|].
      do 4 apply infix_app_r. apply infix_app_l. exact Hfinal. }
  split; [exact Hstages|]. split; [|split].
  - destruct Hstages as (pre & post & Hout & Hpost). rewrite Hout.
    destruct only; simpl target_of.
    + apply infix_app_r, infix_app_l. exists "", "". reflexivity.
    + do 2 apply infix_app_r.
      eapply infix_trans; [|exact Hpost]. exists "FROM dependencies", "".
      reflexivity.
  - rewrite render_dockerfile_eq.
    exists ((if pull_given pull then "" else dependency_block) +:+ nl +:+ nl +:+
            (if pull_given pull
             then nl +:+ "FROM " +:+ default "" pull +:+ " AS dependencies" +:+ nl
             else "") +:+ final_header +:+
            (if only then ""
             else nl +:+ shell_setup_text +:+ "COPY " +:+ str r +:+
                  " /opt/decaf" +:+ nl +:+ patch_text +:+
                  compile_instruction +:+ nl)).
    rewrite !append_assoc. reflexivity.
  - intros r'. rewrite !render_dockerfile_eq. reflexivity.
Qed.

(** X11: for what the command line can pass, the dependency block is in
    the Dockerfile exactly when no image is pulled; and a pull tag that is
    the empty text, which only a direct call can give, counts as absent. *)
Theorem dependency_block_iff_no_pull (r : Path) (only : bool) (pull : option string) :
  render_dockerfile r only (Some "") = render_dockerfile r only None ∧
  (pull_ok pull → root r = "" → wf_names (names r) →
   (infix dependency_block (render_dockerfile r only pull) ↔ pull = None)).
Proof.
  split; [by rewrite !render_dockerfile_eq|].
  intros Hpull Hroot Hwf. split.
  - destruct pull as [t|]; [|done]. intros Hin.
    by destruct (pulled_rendering r only t Hpull Hroot Hwf) as [Hno _].
  - intros ->. rewrite render_dockerfile_eq. simpl pull_given. cbv iota.
    apply infix_app_l. exists "", "". by rewrite append_nil_r.
Qed.

(** ** The defaults of build-docker-image *)

(** X12: with options that validate, the command line of
    build-docker-image runs the command with each omitted option at its
    default: the source tree [decaf] in the working directory, the
    repository [git@bitbucket.org:tpeterka1/decaf.git], the branch
    [decaf-henson], the tag [decaf-fermi:latest]; the keywords of the
    parser bind to the parameters of the function. *)
Theorem build_docker_image_defaults (env : Env) (f : FS env)
    (root repo branch t : option string) (only : bool) (pull : option string) :
  parser_ok env f → (∀ x, t = Some x → tag x = inr x) → pull_ok pull →
  cli env (BuildDockerImage root repo branch t only pull) (start env f)
  = main_build_docker_image env
      (from_option parse (default_decaf_root env) root)
      (default "git@bitbucket.org:tpeterka1/decaf.git" repo)
      (default "decaf-henson" branch)
      (default "decaf-fermi:latest" t) only pull (start env f).
Proof. intros Hp Ht Hpl. by apply cli_build_docker_image. Qed.

Lemma build_docker_image_defaults_witness :
  let env := toy_env home all_ok in
  (cli env (BuildDockerImage None None None None true None) (start env [home])).2
  = (main_build_docker_image env (parse "/home/u/decaf")
       "git@bitbucket.org:tpeterka1/decaf.git" "decaf-henson" "decaf-fermi:latest"
       true None (start env [home])).2.
Proof.
  cbv zeta.
  rewrite (build_docker_image_defaults (toy_env home all_ok) [home]
             None None None None true None).
  - reflexivity.
  - by eexists.
  - done.
  - done.
Defined.
